(** * Ollama-Workbench, [ui_elements.py]: the corpus pipeline and the
      tokens-per-second arithmetic

    The dashboard code is glue over three collaborators: the file system
    (through [os] and [shutil]), the text splitter and the vector store of
    the retrieval library, and the embedding service.  This development
    embeds the functions of [ui_elements.py] that touch corpora
    ([manage_corpus], [create_corpus_from_files], [create_corpus_from_text],
    [get_corpus_context_from_db]) and the rate computation of
    [run_comparison] and [contextual_response_test], and states the
    properties of the design document about them.

    What lies outside the file is modelled as follows.  The calls into
    [os] and [shutil] follow the Python standard library on a POSIX system.
    The vector store and the chunker follow their contracts in the design
    document (4.1, 4.3); each such definition says so.  The embedding
    service, the similarity metric and the text splitter handed to the
    corpus builders are parameters.  Floats are exact rationals.  Output to
    the page ([st.write], [st.success], [st.error]) has no effect on
    storage or session state and is left out.  A run of a page gets one
    click at most, and the keys of the widgets it renders are taken to be
    distinct.  Strings are sequences of characters below 256. *)

From Stdlib Require Import QArith Qabs.
From stdpp Require Import gmap strings list sorting.

Local Open Scope string_scope.
Local Open Scope list_scope.
Local Open Scope Z_scope.

(** ** Results of fallible code *)

Inductive result (E A : Type) : Type :=
| Ok (a : A)
| Err (e : E).
Arguments Ok {E A} a.
Arguments Err {E A} e.

(** * Tokens per second ([run_comparison], [contextual_response_test]) *)

Module Performance.

(** The two counters come from the JSON answer of the model server: an
    integer, or [None] when the field is missing. *)
Inductive pyval : Type :=
| PyNone
| PyInt (z : Z).

(** The exceptions the arithmetic can raise. *)
Inductive pyerror : Type :=
| TypeError
| ZeroDivisionError.

(** Python truthiness: [None] and [0] are false. *)
Definition truthy (v : pyval) : bool :=
  match v with
  | PyNone => false
  | PyInt z => negb (z =? 0)
  end.

(** The number an operand of [/] stands for; [None / x] raises
    [TypeError]. *)
Definition number (v : pyval) : result pyerror Q :=
  match v with
  | PyNone => Err TypeError
  | PyInt z => Ok (inject_Z z)
  end.

(** True division [a / b]: the quotient is a float, taken here as the exact
    rational; a zero divisor raises [ZeroDivisionError]. *)
Definition truediv (a b : Q) : result pyerror Q :=
  if Qeq_bool b 0 then Err ZeroDivisionError else Ok (a / b)%Q.

(** [10**9] *)
Definition nanos : Q := inject_Z (10 ^ 9).

(** The expression shared by both call sites:
    [eval_count / (eval_duration / (10**9)) if eval_count and eval_duration else 0] *)
Definition tokens_per_second (eval_count eval_duration : pyval)
  : result pyerror Q :=
  if truthy eval_count && truthy eval_duration then
    match number eval_count, number eval_duration with
    | Ok c, Ok d =>
        match truediv d nanos with
        | Ok seconds => truediv c seconds
        | Err e => Err e
        end
    | Err e, _ => Err e
    | _, Err e => Err e
    end
  else Ok 0%Q.

(** One entry of the dictionary [performance_test] returns:
    [results[model] = (result, elapsed_time, eval_count, eval_duration)]. *)
Record test_result : Type := TestResult {
  response : string;
  elapsed_time : Q;
  eval_count : pyval;
  eval_duration : pyval
}.

(** The list comprehension over [models]; the first exception ends it. *)
Fixpoint tokens_per_second_list (rs : list test_result)
  : result pyerror (list Q) :=
  match rs with
  | [] => Ok []
  | r :: rs' =>
      match tokens_per_second (eval_count r) (eval_duration r) with
      | Err e => Err e
      | Ok v =>
          match tokens_per_second_list rs' with
          | Err e => Err e
          | Ok vs => Ok (v :: vs)
          end
      end
  end.

(** [run_comparison], after [performance_test] has produced [results] (a
    dictionary, here in its insertion order): the models, the times and the
    rates that go into the data frame. *)
Definition run_comparison (results : list (string * test_result))
  : result pyerror (list string * list Q * list Q) :=
  let models := map fst results in
  let times := map (fun mr => elapsed_time (snd mr)) results in
  match tokens_per_second_list (map snd results) with
  | Err e => Err e
  | Ok tps => Ok (models, times, tps)
  end.

(** The rate as the claim words it: the quotient when both counters are
    present and non-zero, [0] otherwise. *)
Definition rate_spec (eval_count eval_duration : pyval) : Q :=
  match eval_count, eval_duration with
  | PyInt c, PyInt d =>
      if (c =? 0) || (d =? 0) then 0%Q
      else (inject_Z c / (inject_Z d / nanos))%Q
  | _, _ => 0%Q
  end.

End Performance.

(** * Text *)

(** Python strings are sequences of characters; slices [s[:n]] and
    [s[n:]] are total (they clip at the end of the string). *)
Module Text.

Fixpoint take (n : nat) (s : string) : string :=
  match n, s with
  | S n', String c s' => String c (take n' s')
  | _, _ => ""
  end.

Fixpoint drop (n : nat) (s : string) : string :=
  match n, s with
  | S n', String _ s' => drop n' s'
  | _, _ => s
  end.

(** The line feed, and the blank-line separator ["\n\n"]. *)
Definition nl : string := String (Ascii.ascii_of_nat 10) "".
Definition blank_line : string := nl +:+ nl.

(** [sep.join(parts)] *)
Definition join (sep : string) (parts : list string) : string :=
  String.concat sep parts.

End Text.

(** * Chunker *)

Module Chunker.
Import Text.

(** A segment: a slice of the source text and where it starts.  (The
    corpus a segment belongs to is the concern of the corpus manager.) *)
Record segment : Type := Segment {
  seg_text : string;
  source_offset : nat
}.

(** Modelled from the spec: the chunker is the text splitter of the
    retrieval library, which is not part of [ui_elements.py].  The design
    document (4.1) gives its contract: it splits on a size boundary in
    characters, each segment holding at most [chunk_size] characters and
    sharing [overlap] characters with the next one, so a new segment starts
    every [chunk_size - overlap] characters until the text is exhausted.
    [rest] is the text from [offset] on; [fuel] bounds the number of
    segments (the length of the text is enough, see [chunk]). *)
Fixpoint chunk_from (fuel : nat) (chunk_size step offset : nat)
    (rest : string) : list segment :=
  match fuel with
  | O => []
  | S fuel' =>
      match rest with
      | "" => []
      | _ =>
          Segment (take chunk_size rest) offset
          :: chunk_from fuel' chunk_size step (offset + step) (drop step rest)
      end
  end.

(** Modelled from the spec: [chunk(text, chunk_size, overlap)] (4.1).  The
    caller owes [overlap < chunk_size]; without it the window does not
    advance, and the document allows an empty output there.  An empty text
    yields no segment. *)
Definition chunk (text : string) (chunk_size overlap : nat) : list segment :=
  if (chunk_size <=? overlap)%nat then []
  else chunk_from (String.length text) chunk_size (chunk_size - overlap) 0 text.

(** Putting the segments back together: the first one whole, every later
    one without the [overlap] characters it repeats. *)
Definition reassemble (overlap : nat) (segments : list segment) : string :=
  match segments with
  | [] => ""
  | s :: later =>
      seg_text s +:+ String.concat "" (map (fun t => drop overlap (seg_text t)) later)
  end.

End Chunker.

(** * Vector index *)

Module VectorIndex.

(** An embedding is a vector of numbers; the floats are taken as exact
    rationals. *)
Definition Embedding : Type := list Q.

(** A stored pair: the text of a segment and its embedding. *)
Record entry : Type := Entry {
  page_content : string;
  embedding : Embedding
}.

Inductive index_error : Type :=
| ArgumentMismatch
| InvalidArgument.

(** Modelled from the spec: [add(handle, segments, embeddings)] (4.3)
    appends the pairs to the entries of the index; sequences of different
    lengths are refused with [ArgumentMismatch].  The vector store itself
    belongs to the retrieval library. *)
Definition add (entries : list entry) (segments : list string)
    (embeddings : list Embedding) : result index_error (list entry) :=
  if (length segments =? length embeddings)%nat
  then Ok (entries ++ zip_with Entry segments embeddings)
  else Err ArgumentMismatch.

Section search.
(** The similarity metric of the store: larger is nearer. *)
Variable similarity : Embedding -> Embedding -> Q.

Definition score (q : Embedding) (e : entry) : Q :=
  similarity q (embedding e).

(** [nearer q e1 e2]: [e1] ranks no later than [e2]. *)
Definition nearer (q : Embedding) (e1 e2 : entry) : Prop :=
  (score q e2 <= score q e1)%Q.

#[global] Instance nearer_dec q e1 e2 : Decision (nearer q e1 e2).
Proof.
  unfold nearer.
  destruct (Qlt_le_dec (score q e1) (score q e2)) as [Hlt|Hle].
  - right. intros Hle. exact (Qlt_not_le _ _ Hlt Hle).
  - left. exact Hle.
Defined.

(** All entries, nearest first. *)
Definition ranked (q : Embedding) (entries : list entry) : list entry :=
  merge_sort (nearer q) entries.

(** Modelled from the spec: [search(handle, query_embedding, k)] (4.3)
    returns up to [k] nearest neighbours with their scores, nearest
    first; [k <= 0] fails with [InvalidArgument]; an index with fewer
    than [k] entries returns all of them. *)
Definition search (entries : list entry) (q : Embedding) (k : Z)
  : result index_error (list (entry * Q)) :=
  if k <=? 0 then Err InvalidArgument
  else Ok (map (fun e => (e, score q e)) (firstn (Z.to_nat k) (ranked q entries))).
End search.

End VectorIndex.

(** * Storage, session state and the script monad *)

(** The exceptions a run of the script can end with: those of the Python
    standard library that the calls in [ui_elements.py] can raise, and the
    failure kinds the design document names (7).  Nothing in the file raises
    the last three by itself. *)
Inductive error : Type :=
| FileNotFoundError
| OSError_ENOTEMPTY
| UnicodeDecodeError
| EmbeddingUnavailable
| IndexCorrupt
| IndexError (e : VectorIndex.index_error)
| EmptyCorpus
| CorpusNotFound
| NameConflict.

(** A directory below the corpus folder: just created and still empty,
    holding a persisted index, or holding something the vector store cannot
    read. *)
Inductive dir : Type :=
| EmptyDir
| IndexDir (entries : list VectorIndex.entry)
| UnreadableDir.

(** A regular file of the files folder: text, or bytes that are not UTF-8. *)
Inductive file : Type :=
| TextFile (content : string)
| BinaryFile.

(** What a run can see and change.  [corpus_folder] maps the name of each
    directory below ["corpus"] to its contents, so
    [os.path.join(corpus_folder, name)] is the key [name] (for names that
    are single path components, see [path_component]; the file system
    tells upper from lower case; the corpus folder holds directories
    only).  [files_folder] is [None] while the folder ["files"]
    does not exist.  [session_state_rename_corpus] is
    [st.session_state.rename_corpus], [None] when unset. *)
Record world : Type := World {
  corpus_folder : gmap string dir;
  files_folder : option (gmap string file);
  session_state_rename_corpus : option string
}.

Definition with_corpus_folder (f : gmap string dir -> gmap string dir)
    (w : world) : world :=
  World (f (corpus_folder w)) (files_folder w) (session_state_rename_corpus w).

Definition with_rename_corpus (r : option string) (w : world) : world :=
  World (corpus_folder w) (files_folder w) r.

(** How a piece of the script ends: with a value, with
    [st.experimental_rerun()], which abandons the rest of the run, or with
    an uncaught exception.  The world is kept in all three cases: what was
    written before an exception stays written. *)
Inductive outcome (A : Type) : Type :=
| Ret (a : A)
| Rerun
| Raise (e : error).
Arguments Ret {A} a.
Arguments Rerun {A}.
Arguments Raise {A} e.

Definition M (A : Type) : Type := world -> outcome A * world.

Definition ret {A} (a : A) : M A := fun w => (Ret a, w).

Definition bind {A B} (m : M A) (k : A -> M B) : M B :=
  fun w =>
    match m w with
    | (Ret a, w') => k a w'
    | (Rerun, w') => (Rerun, w')
    | (Raise e, w') => (Raise e, w')
    end.

Definition raise {A} (e : error) : M A := fun w => (Raise e, w).
Definition experimental_rerun {A} : M A := fun w => (Rerun, w).
Definition gets {A} (f : world -> A) : M A := fun w => (Ret (f w), w).
Definition modify (f : world -> world) : M unit := fun w => (Ret tt, f w).

Declare Scope script_scope.
Delimit Scope script_scope with script.
Notation "x <- c ;; k" := (bind c (fun x => k))
  (at level 100, c at next level, right associativity) : script_scope.
Notation "c ;; k" := (bind c (fun _ => k))
  (at level 100, right associativity) : script_scope.
Local Open Scope script_scope.

(** ** The calls into [os] and [shutil] (POSIX behaviour) *)

(** [os.makedirs(path, exist_ok=True)], for a path that is the corpus
    folder joined with a [path_component]. *)
Definition os_makedirs (name : string) : M unit :=
  d <- gets (fun w => corpus_folder w !! name) ;;
  match d with
  | Some _ => ret tt
  | None => modify (with_corpus_folder (insert name EmptyDir))
  end.

(** [shutil.rmtree(path)]: a missing path raises. *)
Definition shutil_rmtree (name : string) : M unit :=
  d <- gets (fun w => corpus_folder w !! name) ;;
  match d with
  | Some _ => modify (with_corpus_folder (delete name))
  | None => raise FileNotFoundError
  end.

(** [os.rename(src, dst)] on directories: a missing source raises; renaming
    a directory to itself does nothing; an existing destination is replaced
    when it is an empty directory and refused otherwise.  A destination
    that is absent as a key is a free name when it is a [path_component]. *)
Definition os_rename (src dst : string) : M unit :=
  s <- gets (fun w => corpus_folder w !! src) ;;
  match s with
  | None => raise FileNotFoundError
  | Some d =>
      if decide (src = dst) then ret tt
      else
        t <- gets (fun w => corpus_folder w !! dst) ;;
        match t with
        | None | Some EmptyDir =>
            modify (with_corpus_folder (fun m => <[dst := d]> (delete src m)))
        | Some _ => raise OSError_ENOTEMPTY
        end
  end.

(** [[f for f in os.listdir(corpus_folder) if os.path.isdir(...)]] *)
Definition listdir_corpus_folder : M (list string) :=
  gets (fun w => elements (dom (corpus_folder w))).

(** [os.listdir(files_folder)]: raises while the folder does not exist.
    (The filter on extensions only decides what the selection widget
    offers.) *)
Definition listdir_files_folder : M (list string) :=
  fs <- gets files_folder ;;
  match fs with
  | None => raise FileNotFoundError
  | Some m => ret (elements (dom m))
  end.

(** [with open(file_path, "r", encoding='utf-8') as f: f.read()] *)
Definition read_text (name : string) : M string :=
  fs <- gets files_folder ;;
  match fs with
  | None => raise FileNotFoundError
  | Some m =>
      match m !! name with
      | None => raise FileNotFoundError
      | Some (TextFile content) => ret content
      | Some BinaryFile => raise UnicodeDecodeError
      end
  end.

(** ** The widgets of the corpus page *)

Inductive button : Type :=
| RenameButton (corpus : string)
| DeleteButton (corpus : string)
| ConfirmRename (corpus : string)
| CreateCorpusButton.

#[global] Instance button_eq_dec : EqDecision button.
Proof. solve_decision. Defined.

(** What the browser sends with one run: the button that was clicked, if
    any, and the contents of the input widgets. *)
Record widgets : Type := Widgets {
  clicked : option button;
  rename_corpus_input : string;
  create_corpus_files : list string;
  create_corpus_name : string
}.

(** [st.button(..., key=...)] is true in the run its click started. *)
Definition st_button (ui : widgets) (b : button) : bool :=
  bool_decide (clicked ui = Some b).

(** A Python string is true when it is not empty. *)
Definition nonempty (s : string) : bool :=
  match s with "" => false | _ => true end.

(** ** Names that are one directory entry *)

(** The characters a file name cannot hold: the separator and NUL. *)
Definition separates (c : Ascii.ascii) : bool :=
  let n := Ascii.nat_of_ascii c in ((n =? 47) || (n =? 0))%nat.

Fixpoint has_separator (s : string) : bool :=
  match s with
  | "" => false
  | String c s' => separates c || has_separator s'
  end.

(** The bytes of a name in UTF-8: two for a character from 128 on. *)
Fixpoint encoded_length (s : string) : nat :=
  match s with
  | "" => O
  | String c s' =>
      ((if Ascii.nat_of_ascii c <? 128 then 1 else 2) + encoded_length s')%nat
  end.

(** [path_component name]: [os.path.join(folder, name)] is an entry of
    [folder] itself and nothing else.  The name is not empty, is neither
    ["."] nor [".."], holds no separator and no NUL, and fits a directory
    entry (255 bytes).  Only for such names is the key [name] of
    [corpus_folder] the directory the code reaches; the names
    [os.listdir] returns are all of this kind, a name typed into a text
    input need not be. *)
Definition path_component (name : string) : bool :=
  nonempty name
  && negb (String.eqb name ".") && negb (String.eqb name "..")
  && negb (has_separator name)
  && (encoded_length name <=? 255)%nat.

(** * More of Python's [str] *)

Module PyStr.
Import Text.

(** [c.isspace()] for the characters below 256: the ASCII white space, the
    four separators [\x1c]-[\x1f], NEL and the no-break space. *)
Definition isspace (c : Ascii.ascii) : bool :=
  let n := Ascii.nat_of_ascii c in
  ((9 <=? n) && (n <=? 13) || (28 <=? n) && (n <=? 32)
   || (n =? 133) || (n =? 160))%nat.

(** [s.lstrip(chars)], [s.rstrip(chars)] and [s.strip(chars)], the set of
    characters given as a predicate. *)
Fixpoint lstrip (chars : Ascii.ascii -> bool) (s : string) : string :=
  match s with
  | "" => ""
  | String c s' => if chars c then lstrip chars s' else s
  end.

Fixpoint rstrip (chars : Ascii.ascii -> bool) (s : string) : string :=
  match s with
  | "" => ""
  | String c s' =>
      match rstrip chars s' with
      | "" => if chars c then "" else String c ""
      | String _ _ as kept => String c kept
      end
  end.

Definition strip (chars : Ascii.ascii -> bool) (s : string) : string :=
  rstrip chars (lstrip chars s).

(** [s.partition(sep)] when [sep] occurs in [s]: what comes before its
    first occurrence and what comes after; [None] when it does not occur. *)
Fixpoint partition (sep s : string) : option (string * string) :=
  if String.prefix sep s then Some ("", drop (String.length sep) s)
  else
    match s with
    | "" => None
    | String c s' =>
        match partition sep s' with
        | Some (before, after) => Some (String c before, after)
        | None => None
        end
    end.

(** [s.replace(old, new)] for a non-empty [old]: the occurrences of [old]
    are replaced from left to right, none overlapping another.  Every step
    consumes a character, so the length of [s] bounds the steps. *)
Fixpoint replace_from (fuel : nat) (old new s : string) : string :=
  match fuel with
  | O => s
  | S fuel' =>
      if String.prefix old s
      then new +:+ replace_from fuel' old new (drop (String.length old) s)
      else
        match s with
        | "" => ""
        | String c s' => String c (replace_from fuel' old new s')
        end
  end.

Definition replace (old new s : string) : string :=
  replace_from (S (String.length s)) old new s.

End PyStr.

(** * [extract_code_blocks] *)

Module CodeBlocks.
Import PyStr.

(** The delimiter of a code block. *)
Definition fence : string := "```".

Definition backtick : Ascii.ascii := Ascii.ascii_of_nat 96.
Definition is_backtick (c : Ascii.ascii) : bool := Ascii.eqb c backtick.

(** [re.findall(r'```[\s\S]*?```', text)]: the matches, from left to right
    and not overlapping.  A match opens at the first fence and, the body
    being matched lazily and by any character, closes at the first fence
    after it; when the first fence has no closing one, no later position
    has one either.  Every match takes at least the two fences, so the
    length of the text bounds their number. *)
Fixpoint findall_fenced (fuel : nat) (text : string) : list string :=
  match fuel with
  | O => []
  | S fuel' =>
      match partition fence text with
      | None => []
      | Some (_, opened) =>
          match partition fence opened with
          | None => []
          | Some (body, rest) =>
              (fence +:+ body +:+ fence) :: findall_fenced fuel' rest
          end
      end
  end.

(** [extract_code_blocks(text)] *)
Definition extract_code_blocks (text : string) : list string :=
  let code_blocks := findall_fenced (String.length text) text in
  map (fun block => strip isspace (strip is_backtick block)) code_blocks.

(** The first and the last character of a string. *)
Definition first_char (s : string) : option Ascii.ascii :=
  match s with
  | "" => None
  | String c _ => Some c
  end.

Fixpoint last_char (s : string) : option Ascii.ascii :=
  match s with
  | "" => None
  | String c "" => Some c
  | String _ s' => last_char s'
  end.

(** No character of [s] satisfies [p]. *)
Fixpoint free_of (p : Ascii.ascii -> bool) (s : string) : bool :=
  match s with
  | "" => true
  | String c s' => negb (p c) && free_of p s'
  end.

End CodeBlocks.

(** * The name typed into [pull_models] *)

Module ModelNames.
Import PyStr.

(** What a click on "Pull Model" leads to: the request for a name, or a
    call of [pull_model] with the cleaned name. *)
Inductive pull_action : Type :=
| AskForName
| PullModel (model_name : string).

(** [pull_models], from the click to the call of [pull_model]:
    [model_name.replace("ollama run ", "").replace("ollama pull ", "").strip()],
    guarded by [if model_name]. *)
Definition pull_models (model_name : string) : pull_action :=
  if nonempty model_name then
    PullModel
      (strip isspace
         (replace "ollama pull " "" (replace "ollama run " "" model_name)))
  else AskForName.

End ModelNames.

(** * The rates shown by [model_comparison_test] *)

Module Comparison.
Import Performance.

(** What the display can raise: an exception of the rate computation, or
    those of [list.index] and of indexing. *)
Inductive display_error : Type :=
| Arithmetic (e : pyerror)
| ValueError
| IndexError.

(** The rate of one entry of [results], as [rate_spec] gives it. *)
Definition rate_of (mr : string * test_result) : Q :=
  rate_spec (eval_count mr.2) (eval_duration mr.2).

(** [l.index(x)]: the position of the first element equal to [x]; [None]
    stands for [ValueError]. *)
Fixpoint list_index (x : string) (l : list string) : option nat :=
  match l with
  | [] => None
  | y :: l' =>
      if decide (x = y) then Some O
      else
        match list_index x l' with
        | Some i => Some (S i)
        | None => None
        end
  end.

(** The loop over [results.items()]: for each model the rate
    [tokens_per_second[models.index(model)]] that goes into its heading. *)
Fixpoint heading_rates (models : list string) (tokens_per_second : list Q)
    (items : list (string * test_result))
  : result display_error (list (string * Q)) :=
  match items with
  | [] => Ok []
  | (model, _) :: rest =>
      match list_index model models with
      | None => Err ValueError
      | Some i =>
          match tokens_per_second !! i with
          | None => Err IndexError
          | Some rate =>
              match heading_rates models tokens_per_second rest with
              | Ok shown => Ok ((model, rate) :: shown)
              | Err e => Err e
              end
          end
      end
  end.

(** [model_comparison_test] after the click, for a non-empty selection:
    [run_comparison], then the headings. *)
Definition model_comparison_test (results : list (string * test_result))
  : result display_error (list (string * Q)) :=
  match run_comparison results with
  | Err e => Err (Arithmetic e)
  | Ok (models, _, tokens_per_second) =>
      heading_rates models tokens_per_second results
  end.

End Comparison.

(** * [files_tab] *)

(** The files folder holds regular files only (the listing skips
    everything else). *)
Module FilesTab.
Import Text PyStr.

(** [c.lower()] for the characters below 256. *)
Definition lower_char (c : Ascii.ascii) : Ascii.ascii :=
  let n := Ascii.nat_of_ascii c in
  if ((65 <=? n) && (n <=? 90)
      || (192 <=? n) && (n <=? 222) && negb (n =? 215))%nat
  then Ascii.ascii_of_nat (n + 32)
  else c.

Fixpoint lower (s : string) : string :=
  match s with
  | "" => ""
  | String c s' => String (lower_char c) (lower s')
  end.

Definition is_dot (c : Ascii.ascii) : bool :=
  Ascii.eqb c (Ascii.ascii_of_nat 46).

(** The part of a name from its last dot on; [None] without a dot. *)
Fixpoint from_last_dot (p : string) : option string :=
  match p with
  | "" => None
  | String c p' =>
      match from_last_dot p' with
      | Some ext => Some ext
      | None => if is_dot c then Some p else None
      end
  end.

(** All characters of [s] are dots. *)
Fixpoint only_dots (s : string) : bool :=
  match s with
  | "" => true
  | String c s' => is_dot c && only_dots s'
  end.

(** [os.path.splitext(p)] for a name without directory part: the
    extension starts at the last dot, unless only dots come before it. *)
Definition splitext (p : string) : string * string :=
  match from_last_dot p with
  | None => (p, "")
  | Some ext =>
      let root := take (String.length p - String.length ext) p in
      if only_dots root then (p, "") else (root, ext)
  end.

(** [s.endswith(suffix)] *)
Fixpoint endswith (s suffix : string) : bool :=
  if String.eqb s suffix then true
  else
    match s with
    | "" => false
    | String _ s' => endswith s' suffix
    end.

Definition allowed_extensions : list string :=
  [".json"; ".txt"; ".pdf"; ".gif"; ".jpg"; ".jpeg"; ".png"].

(** The test of the listing on one name of the folder. *)
Definition allowed (f : string) : bool :=
  bool_decide (lower (splitext f).2 ∈ allowed_extensions).

(** The buttons of the page, each with the file of its row. *)
Inductive file_button : Type :=
| DownloadButton (file : string)
| ViewButton (file : string)
| EditButton (file : string)
| DeleteFileButton (file : string)
| SaveButton (file : string).

#[global] Instance file_button_eq_dec : EqDecision file_button.
Proof. solve_decision. Defined.

(** What the browser sends with one run of the page: the button clicked,
    if any, the text in the editor, and the file held by the uploader (its
    name and contents). *)
Record files_widgets : Type := FilesWidgets {
  clicked_button : option file_button;
  edit_content : string;
  uploaded_file : option (string * file)
}.

(** [st.session_state.get(key, False)] for the key of a button: true when
    the first loop has rendered the button and it is the one clicked. *)
Definition session_state_get (ui : files_widgets) (rendered : bool)
    (b : file_button) : bool :=
  rendered && bool_decide (clicked_button ui = Some b).

Local Open Scope script_scope.

(** The state with the files folder holding [m]. *)
Definition with_files (m : gmap string file) (w : world) : world :=
  World (corpus_folder w) (Some m) (session_state_rename_corpus w).

(** [if not os.path.exists(files_folder): os.makedirs(files_folder)] *)
Definition ensure_files_folder : M unit :=
  modify (fun w =>
            match files_folder w with
            | Some _ => w
            | None => with_files ∅ w
            end).

(** Reading a file as text inside [try ... except UnicodeDecodeError]:
    [None] when the handler has run. *)
Definition read_or_report (file : string) : M (option string) :=
  fun w =>
    match read_text file w with
    | (Ret content, w') => (Ret (Some content), w')
    | (Raise UnicodeDecodeError, w') => (Ret None, w')
    | (Raise e, w') => (Raise e, w')
    | (Rerun, w') => (Rerun, w')
    end.

(** [open(file_path, "rb").read()]: any file that is there can be read. *)
Definition read_bytes (file : string) : M unit :=
  fs <- gets files_folder ;;
  match fs with
  | None => raise FileNotFoundError
  | Some m =>
      match m !! file with
      | None => raise FileNotFoundError
      | Some _ => ret tt
      end
  end.

(** [open(file_path, "w" or "wb").write(...)] *)
Definition write_file (name : string) (content : file) : M unit :=
  fs <- gets files_folder ;;
  match fs with
  | None => raise FileNotFoundError
  | Some m =>
      modify (with_files (<[name := content]> m))
  end.

(** [os.remove(file_path)] *)
Definition os_remove (name : string) : M unit :=
  fs <- gets files_folder ;;
  match fs with
  | None => raise FileNotFoundError
  | Some m =>
      match m !! name with
      | None => raise FileNotFoundError
      | Some _ =>
          modify (with_files (delete name m))
      end
  end.

(** The body of the second loop for one file: view, edit (with its save
    button), download, delete, in this order. *)
Definition file_actions (ui : files_widgets) (file : string) : M unit :=
  let is_pdf := endswith file ".pdf" in
  (if session_state_get ui (negb is_pdf) (ViewButton file)
   then _ <- read_or_report file ;; ret tt
   else ret tt) ;;
  (if session_state_get ui (negb is_pdf) (EditButton file)
   then
     r <- read_or_report file ;;
     match r with
     | Some file_content =>
         let new_content := edit_content ui in
         if bool_decide (clicked_button ui = Some (SaveButton file))
         then write_file file (TextFile new_content)
         else ret tt
     | None => ret tt
     end
   else ret tt) ;;
  (if session_state_get ui is_pdf (DownloadButton file)
   then
     if is_pdf then read_bytes file
     else _ <- read_text file ;; ret tt
   else ret tt) ;;
  (if session_state_get ui true (DeleteFileButton file)
   then os_remove file ;; experimental_rerun
   else ret tt).

Fixpoint file_rows (ui : files_widgets) (files : list string) : M unit :=
  match files with
  | [] => ret tt
  | file :: rest => file_actions ui file ;; file_rows ui rest
  end.

(** [files_tab()] *)
Definition files_tab (ui : files_widgets) : M unit :=
  ensure_files_folder ;;
  names <- listdir_files_folder ;;
  let files := List.filter allowed names in
  file_rows ui files ;;
  match uploaded_file ui with
  | Some (name, content) => write_file name content ;; experimental_rerun
  | None => ret tt
  end.

End FilesTab.

(** * The loop of [contextual_response_test] *)

Module Contextual.
Import PyStr Performance.

Definition is_nl (c : Ascii.ascii) : bool :=
  Ascii.eqb c (Ascii.ascii_of_nat 10).

(** [s.split("\n")]: the pieces between the line feeds; one piece more
    than there are line feeds, some of them possibly empty. *)
Fixpoint split_lines (s : string) : list string :=
  match s with
  | "" => [""]
  | String c s' =>
      if is_nl c then "" :: split_lines s'
      else
        match split_lines s' with
        | line :: rest => String c line :: rest
        | [] => [String c ""]
        end
  end.

(** The number of line feeds of a string. *)
Fixpoint count_nl (s : string) : nat :=
  match s with
  | "" => O
  | String c s' => ((if is_nl c then 1 else 0) + count_nl s')%nat
  end.

Section loop.
(** [call_ollama_endpoint] for the selected model and the sliders, as a
    function of the prompt and the context: the answer, the new context
    and the two counters.  The server is taken to answer every call. *)
Variable call_ollama_endpoint :
  string -> list Z -> string * list Z * pyval * pyval.

(** The loop over the prompts: each call gets the context the call before
    it returned.  A row holds the prompt, the answer and the rate. *)
Fixpoint prompt_loop (prompt_list : list string) (context : list Z)
  : result pyerror (list (string * string * Q)) :=
  match prompt_list with
  | [] => Ok []
  | prompt :: rest =>
      let '(answer, context', eval_count, eval_duration) :=
        call_ollama_endpoint prompt context in
      match tokens_per_second eval_count eval_duration with
      | Err e => Err e
      | Ok rate =>
          match prompt_loop rest context' with
          | Ok rows => Ok ((prompt, answer, rate) :: rows)
          | Err e => Err e
          end
      end
  end.

(** [contextual_response_test] after the click: the prompts of the text
    area, one per line and stripped, are sent in turn.  (The clock and the
    chart are left out.) *)
Definition contextual_response_test (prompts : string)
  : result pyerror (list (string * string * Q)) :=
  let prompt_list := map (strip isspace) (split_lines prompts) in
  let context := [] in
  prompt_loop prompt_list context.
End loop.

End Contextual.

(** ** Fixtures: a small embedder and metric to run the model on *)

Module Fixture.
Import VectorIndex.

(** One coordinate: the length of the text. *)
Definition embed (text : string) : option Embedding :=
  Some [inject_Z (Z.of_nat (String.length text))].

(** Minus the distance on the first coordinate. *)
Definition similarity (a b : Embedding) : Q :=
  match a, b with
  | x :: _, y :: _ => (- Qabs (x - y))%Q
  | _, _ => 0%Q
  end.

(** The splitter of the corpus builders, as the design document has it.
    On the two texts the examples use, the empty one and a single short
    word, it has nothing to cut. *)
Definition split_text (text : string) : list string :=
  map Chunker.seg_text (Chunker.chunk text 1000 0).

Definition no_widgets : widgets := Widgets None "" [] "".
Definition click (b : button) : widgets := Widgets (Some b) "" [] "".

(** Nothing stored, the files folder there and empty, no form open. *)
Definition empty_world : world := World ∅ (Some ∅) None.

(** One corpus ["c"], with the rename form open for it. *)
Definition one_corpus : world :=
  World {[ "c" := IndexDir [] ]} (Some ∅) (Some "c").

(** Two corpora, with the rename form open for ["a"]. *)
Definition two_corpora : world :=
  World (<[ "a" := IndexDir [Entry "x" [1%Q]] ]> {[ "b" := IndexDir [] ]})
        (Some ∅) (Some "a").

(** A corpus ["c"] that already holds the text ["xy"]. *)
Definition old_corpus : world :=
  World {[ "c" := IndexDir [Entry "xy" [2%Q]] ]} (Some ∅) None.

(** The embedding service while it is down. *)
Definition offline_embed (text : string) : option Embedding := None.

(** Two text files. *)
Definition two_files : gmap string file :=
  <[ "a.txt" := TextFile "A" ]> {[ "b.txt" := TextFile "B" ]}.
Definition files_world : world := World ∅ (Some two_files) None.

(** A text file and one that is not text. *)
Definition mixed_files : gmap string file :=
  <[ "a.txt" := TextFile "A" ]> {[ "b.txt" := BinaryFile ]}.
Definition mixed_world : world := World ∅ (Some mixed_files) None.

End Fixture.

(** * The corpus functions of [ui_elements.py] *)

Section CorpusManager.
Import VectorIndex.

(** The collaborators outside the file: the embedding service
    ([OllamaEmbeddings()], [None] when it cannot answer), the metric of
    the vector store, and
    [CharacterTextSplitter(chunk_size=1000, chunk_overlap=0).split_text]. *)
Variable embed : string -> option Embedding.
Variable similarity : Embedding -> Embedding -> Q.
Variable split_text : string -> list string.

(** The store object [db]: where it persists, and the entries it holds. *)
Record Chroma : Type := MkChroma {
  persist_directory : string;
  collection : list entry
}.

(** Modelled from the spec: [Chroma(persist_directory=...)] is
    [create_or_open] of the design document (4.3); the class belongs to
    the retrieval library.  It opens what is persisted under the name, an
    empty index when nothing is, and fails with [IndexCorrupt] on
    contents it cannot read.  Storage only changes on [persist]. *)
Definition Chroma_open (corpus_path : string) : M Chroma :=
  d <- gets (fun w => corpus_folder w !! corpus_path) ;;
  match d with
  | Some (IndexDir entries) => ret (MkChroma corpus_path entries)
  | Some UnreadableDir => raise IndexCorrupt
  | Some EmptyDir | None => ret (MkChroma corpus_path [])
  end.

(** The embedder on every text in turn; the first failure ends it. *)
Fixpoint embed_documents (texts : list string) : M (list Embedding) :=
  match texts with
  | [] => ret []
  | t :: rest =>
      match embed t with
      | None => raise EmbeddingUnavailable
      | Some v => vs <- embed_documents rest ;; ret (v :: vs)
      end
  end.

(** Modelled from the spec: [Chroma.from_documents(docs, embeddings,
    persist_directory=...)] opens the store, embeds the documents and
    [add]s the pairs (4.3, 4.4). *)
Definition Chroma_from_documents (docs : list string)
    (corpus_path : string) : M Chroma :=
  db <- Chroma_open corpus_path ;;
  vectors <- embed_documents docs ;;
  match add (collection db) docs vectors with
  | Ok entries => ret (MkChroma corpus_path entries)
  | Err e => raise (IndexError e)
  end.

(** Modelled from the spec: [db.persist()] flushes the entries of the
    store to its directory (4.3). *)
Definition Chroma_persist (db : Chroma) : M unit :=
  modify (with_corpus_folder
            (insert (persist_directory db) (IndexDir (collection db)))).

(** Modelled from the spec: [db.similarity_search(query, k)] embeds the
    query and runs [search] of the design document (4.3). *)
Definition Chroma_similarity_search (db : Chroma) (query : string) (k : Z)
  : M (list entry) :=
  match embed query with
  | None => raise EmbeddingUnavailable
  | Some q =>
      match search similarity (collection db) q k with
      | Ok hits => ret (map fst hits)
      | Err e => raise (IndexError e)
      end
  end.

(** [create_corpus_from_text(corpus_folder, corpus_name, corpus_text)] *)
Definition create_corpus_from_text (corpus_name corpus_text : string)
  : M unit :=
  let corpus_path := corpus_name in
  os_makedirs corpus_path ;;
  let texts := split_text corpus_text in
  let docs := texts in
  db <- Chroma_from_documents docs corpus_path ;;
  Chroma_persist db.

(** The loop of [create_corpus_from_files] that reads the selected files:
    [all_text += file_content + "\n\n"]. *)
Fixpoint combine_files (selected_files : list string) (all_text : string)
  : M string :=
  match selected_files with
  | [] => ret all_text
  | file :: rest =>
      file_content <- read_text file ;;
      combine_files rest (all_text +:+ (file_content +:+ Text.blank_line))
  end.

(** [create_corpus_from_files(corpus_folder, corpus_name, files_folder,
    selected_files)] *)
Definition create_corpus_from_files (corpus_name : string)
    (selected_files : list string) : M unit :=
  let corpus_path := corpus_name in
  os_makedirs corpus_path ;;
  all_text <- combine_files selected_files "" ;;
  create_corpus_from_text corpus_name all_text.

(** [get_corpus_context_from_db(corpus_folder, corpus_name, query)] *)
Definition get_corpus_context_from_db (corpus_name query : string)
  : M string :=
  let corpus_path := corpus_name in
  db <- Chroma_open corpus_path ;;
  results <- Chroma_similarity_search db query 3 ;;
  ret (Text.join Text.nl (map page_content results)).

(** ** [manage_corpus] *)

(** The rows of the list of existing corpora, each with its rename and
    delete buttons. *)
Fixpoint existing_corpus_rows (ui : widgets) (corpus_list : list string)
  : M unit :=
  match corpus_list with
  | [] => ret tt
  | corpus :: rest =>
      (if st_button ui (RenameButton corpus)
       then modify (with_rename_corpus (Some corpus)) ;; experimental_rerun
       else ret tt) ;;
      (if st_button ui (DeleteButton corpus)
       then shutil_rmtree corpus ;; experimental_rerun
       else ret tt) ;;
      existing_corpus_rows ui rest
  end.

(** "Existing Corpus": the listing and its buttons. *)
Definition existing_corpus_section (ui : widgets) : M unit :=
  corpus_list <- listdir_corpus_folder ;;
  existing_corpus_rows ui corpus_list.

(** "Handle renaming corpus" *)
Definition rename_section (ui : widgets) : M unit :=
  r <- gets session_state_rename_corpus ;;
  match r with
  | Some corpus_to_rename =>
      if nonempty corpus_to_rename then
        let new_corpus_name := rename_corpus_input ui in
        if st_button ui (ConfirmRename corpus_to_rename) then
          if nonempty new_corpus_name then
            os_rename corpus_to_rename new_corpus_name ;;
            modify (with_rename_corpus None) ;;
            experimental_rerun
          else ret tt
        else ret tt
      else ret tt
  | None => ret tt
  end.

(** "Create New Corpus" *)
Definition create_section (ui : widgets) : M unit :=
  files <- listdir_files_folder ;;
  let selected_files := create_corpus_files ui in
  let corpus_name := create_corpus_name ui in
  if st_button ui CreateCorpusButton then
    if negb (bool_decide (selected_files = [])) && nonempty corpus_name then
      create_corpus_from_files corpus_name selected_files ;;
      experimental_rerun
    else ret tt
  else ret tt.

(** One run of the page.  The corpus folder is made when missing, so the
    listing always has a folder to read. *)
Definition manage_corpus (ui : widgets) : M unit :=
  existing_corpus_section ui ;;
  rename_section ui ;;
  create_section ui.

(** ** The operations of the design document, as the page offers them *)

(** Deleting a corpus is a click on its delete button. *)
Definition delete_corpus (corpus_name : string) : M unit :=
  existing_corpus_section (Widgets (Some (DeleteButton corpus_name)) "" [] "").

(** Renaming is a click on "Confirm Rename" with [new_name] typed into
    the form; the form is the one of [old_name] when an earlier click on
    its rename button has left [old_name] in the session state. *)
Definition rename_corpus (old_name new_name : string) : M unit :=
  rename_section (Widgets (Some (ConfirmRename old_name)) new_name [] "").

(** The entries persisted under a name: none unless an index is there. *)
Definition persisted_entries (w : world) (corpus_name : string)
  : list entry :=
  match corpus_folder w !! corpus_name with
  | Some (IndexDir entries) => entries
  | _ => []
  end.


(** ** [get_corpus_context] *)

(** What [get_corpus_context] sees: the files folder, and the directory
    ["./chroma_db"] in which it persists, the same for every file. *)
Record workspace : Type := Workspace {
  ws_files : option (gmap string file);
  chroma_db : option dir
}.

(** What a call can end with beside a value: an exception of the corpus
    functions, the [ZeroDivisionError] of the progress ratio, and the
    exception of [st.progress] for a ratio outside [0.0, 1.0]. *)
Inductive context_error : Type :=
| Raised (e : error)
| ZeroDivision
| StreamlitAPIException.

(** The loop over the chunks: [chars_processed += len(chunk)],
    [progress = chars_processed / total_chars],
    [progress_bar.progress(progress)].  It returns [texts]. *)
Fixpoint progress_loop (total_chars chars_processed : nat)
    (chunks : list string) : result context_error (list string) :=
  match chunks with
  | [] => Ok []
  | chunk :: rest =>
      let chars_processed := (chars_processed + String.length chunk)%nat in
      if (total_chars =? 0)%nat then Err ZeroDivision
      else if (chars_processed <=? total_chars)%nat then
        match progress_loop total_chars chars_processed rest with
        | Ok texts => Ok (chunk :: texts)
        | Err e => Err e
        end
      else Err StreamlitAPIException
  end.

(** The value returned for a file that does not decode. *)
Definition decode_error_message : string :=
  "Error: Unable to decode the corpus file. Please ensure it's a text file.".

(** The embedder on every text; [None] at the first failure. *)
Fixpoint embed_all (texts : list string) : option (list Embedding) :=
  match texts with
  | [] => Some []
  | t :: rest =>
      match embed t, embed_all rest with
      | Some v, Some vs => Some (v :: vs)
      | _, _ => None
      end
  end.

(** [get_corpus_context(corpus_file, query)].  The store is the one of the
    design document (4.3), as for the corpus builders. *)
Definition get_corpus_context (corpus_file query : string) (ws : workspace)
  : result context_error string * workspace :=
  let files := match ws_files ws with Some m => m | None => ∅ end in
  let ws1 := Workspace (Some files) (chroma_db ws) in
  match files !! corpus_file with
  | None => (Err (Raised FileNotFoundError), ws1)
  | Some BinaryFile => (Ok decode_error_message, ws1)
  | Some (TextFile corpus_text) =>
      let total_chars := String.length corpus_text in
      match progress_loop total_chars 0 (split_text corpus_text) with
      | Err e => (Err e, ws1)
      | Ok texts =>
          let docs := texts in
          match chroma_db ws with
          | Some UnreadableDir => (Err (Raised IndexCorrupt), ws1)
          | stored =>
              let entries :=
                match stored with Some (IndexDir es) => es | _ => [] end in
              match embed_all docs with
              | None => (Err (Raised EmbeddingUnavailable), ws1)
              | Some vectors =>
                  match add entries docs vectors with
                  | Err e => (Err (Raised (IndexError e)), ws1)
                  | Ok entries' =>
                      let ws2 :=
                        Workspace (Some files) (Some (IndexDir entries')) in
                      match embed query with
                      | None => (Err (Raised EmbeddingUnavailable), ws2)
                      | Some q =>
                          match search similarity entries' q 3 with
                          | Err e => (Err (Raised (IndexError e)), ws2)
                          | Ok hits =>
                              (Ok (Text.join Text.nl
                                     (map (fun h => page_content h.1) hits)),
                               ws2)
                          end
                      end
                  end
              end
          end
      end
  end.

(** The sum of the lengths of the chunks. *)
Definition total_length (chunks : list string) : nat :=
  foldr (fun chunk n => (String.length chunk + n)%nat) O chunks.

(** The entries a call finds in the store. *)
Definition stored_entries (ws : workspace) : list entry :=
  match chroma_db ws with
  | Some (IndexDir entries) => entries
  | _ => []
  end.

(** [same_elsewhere name w w']: the two states differ at most in the
    directory [name] of the corpus folder. *)
Definition same_elsewhere (name : string) (w w' : world) : Prop :=
  files_folder w' = files_folder w /\
  session_state_rename_corpus w' = session_state_rename_corpus w /\
  forall other, other <> name ->
    corpus_folder w' !! other = corpus_folder w !! other.

(** * Theorems *)

(** ** Strings *)

Lemma append_cons (c : Ascii.ascii) (s t : string) :
  String c s +:+ t = String c (s +:+ t).
Proof. reflexivity. Qed.

Lemma append_nil_l (s : string) : "" +:+ s = s.
Proof. reflexivity. Qed.

Lemma append_nil_r (s : string) : s +:+ "" = s.
Proof.
  induction s as [|c s IH]; [reflexivity|]. by rewrite append_cons, IH.
Qed.


(** ** Running the listing with the delete button of one corpus clicked *)

Lemma st_button_delete_rename (name corpus : string) :
  st_button (Widgets (Some (DeleteButton name)) "" [] "") (RenameButton corpus)
  = false.
Proof. reflexivity. Qed.

Lemma st_button_delete_delete (name corpus : string) :
  st_button (Widgets (Some (DeleteButton name)) "" [] "") (DeleteButton corpus)
  = bool_decide (name = corpus).
Proof.
  unfold st_button. cbn [clicked].
  destruct (decide (name = corpus)) as [->|Hne].
  - rewrite !bool_decide_eq_true_2; done.
  - rewrite !bool_decide_eq_false_2; [done..|congruence].
Qed.

Lemma shutil_rmtree_present (w : world) (name : string) :
  is_Some (corpus_folder w !! name) ->
  shutil_rmtree name w = (Ret tt, with_corpus_folder (delete name) w).
Proof.
  intros [d Hd]. unfold shutil_rmtree, bind, gets. rewrite Hd. reflexivity.
Qed.

Lemma shutil_rmtree_absent (w : world) (name : string) :
  corpus_folder w !! name = None ->
  shutil_rmtree name w = (Raise FileNotFoundError, w).
Proof.
  intros Hd. unfold shutil_rmtree, bind, gets. rewrite Hd. reflexivity.
Qed.

Lemma existing_corpus_rows_delete (name : string) (corpus_list : list string)
    (w : world) :
  (forall c, c ∈ corpus_list -> is_Some (corpus_folder w !! c)) ->
  existing_corpus_rows (Widgets (Some (DeleteButton name)) "" [] "")
    corpus_list w
  = if decide (name ∈ corpus_list)
    then (Rerun, with_corpus_folder (delete name) w)
    else (Ret tt, w).
Proof.
  induction corpus_list as [|corpus rest IH]; intros Hall.
  - rewrite decide_False by apply not_elem_of_nil. reflexivity.
  - cbn [existing_corpus_rows].
    rewrite st_button_delete_rename, st_button_delete_delete.
    destruct (decide (name = corpus)) as [->|Hne].
    + rewrite bool_decide_eq_true_2 by done.
      rewrite decide_True by apply list_elem_of_here.
      unfold bind at 1 2 3. unfold ret at 1.
      rewrite shutil_rmtree_present by (apply Hall, list_elem_of_here).
      reflexivity.
    + rewrite bool_decide_eq_false_2 by done.
      unfold bind at 1 2. unfold ret at 1 2.
      rewrite IH by (intros c Hc; apply Hall, list_elem_of_further, Hc).
      destruct (decide (name ∈ rest)) as [Hin|Hnin].
      * rewrite decide_True by (apply list_elem_of_further, Hin). reflexivity.
      * rewrite decide_False; [reflexivity|].
        intros Hin. apply elem_of_cons in Hin as [?|?]; done.
Qed.

(** What a click on the delete button of [corpus_name] does: the directory
    goes and the page reruns when the corpus is listed; nothing happens when
    it is not, because no row carries that button. *)
Lemma delete_corpus_run (w : world) (corpus_name : string) :
  delete_corpus corpus_name w
  = match corpus_folder w !! corpus_name with
    | Some _ => (Rerun, with_corpus_folder (delete corpus_name) w)
    | None => (Ret tt, w)
    end.
Proof.
  unfold delete_corpus, existing_corpus_section, listdir_corpus_folder.
  unfold bind at 1. unfold gets.
  rewrite existing_corpus_rows_delete.
  - destruct (corpus_folder w !! corpus_name) as [d|] eqn:Hd.
    + rewrite decide_True; [reflexivity|].
      apply elem_of_elements, elem_of_dom. eauto.
    + rewrite decide_False; [reflexivity|].
      rewrite elem_of_elements, elem_of_dom, Hd. apply is_Some_None.
  - intros c Hc. apply elem_of_dom, elem_of_elements, Hc.
Qed.

Lemma delete_corpus_absent_after (w : world) (corpus_name : string) :
  corpus_folder (delete_corpus corpus_name w).2 !! corpus_name = None.
Proof.
  rewrite delete_corpus_run.
  destruct (corpus_folder w !! corpus_name) as [d|] eqn:Hd; cbn.
  - apply lookup_delete_eq.
  - exact Hd.
Qed.

(** C3. Deleting is idempotent on the page: a delete of a name that no
    corpus carries ends without an exception and changes nothing, a delete
    never raises, it leaves the name absent, and a second delete in a row
    ends normally in the very state the first one left. *)
Theorem delete_corpus_idempotent (w : world) (corpus_name : string) :
  (corpus_folder w !! corpus_name = None ->
   delete_corpus corpus_name w = (Ret tt, w)) /\
  (forall e, (delete_corpus corpus_name w).1 <> Raise e) /\
  corpus_folder (delete_corpus corpus_name w).2 !! corpus_name = None /\
  delete_corpus corpus_name (delete_corpus corpus_name w).2
  = (Ret tt, (delete_corpus corpus_name w).2).
Proof.
  split; [|split; [|split]].
  - intros Hd. rewrite delete_corpus_run, Hd. reflexivity.
  - intros e. rewrite delete_corpus_run.
    destruct (corpus_folder w !! corpus_name); discriminate.
  - apply delete_corpus_absent_after.
  - rewrite (delete_corpus_run (delete_corpus corpus_name w).2).
    rewrite delete_corpus_absent_after. reflexivity.
Qed.

(** ** Querying *)






(** ** Building *)

Lemma embed_documents_run (texts : list string) (vectors : list Embedding)
    (w : world) :
  Forall2 (fun t v => embed t = Some v) texts vectors ->
  embed_documents texts w = (Ret vectors, w).
Proof.
  induction 1 as [|t v texts vectors Ht _ IH]; [reflexivity|].
  cbn [embed_documents]. rewrite Ht. unfold bind. rewrite IH. reflexivity.
Qed.

Lemma embed_documents_total (texts : list string) :
  Forall (fun t => is_Some (embed t)) texts ->
  exists vectors, Forall2 (fun t v => embed t = Some v) texts vectors.
Proof.
  induction 1 as [|t texts [v Hv] _ [vectors IH]].
  - exists []. constructor.
  - exists (v :: vectors). by constructor.
Qed.

Lemma os_makedirs_run (w : world) (name : string) :
  os_makedirs name w
  = (Ret tt,
     match corpus_folder w !! name with
     | Some _ => w
     | None => with_corpus_folder (insert name EmptyDir) w
     end).
Proof.
  unfold os_makedirs, bind, gets.
  destruct (corpus_folder w !! name); reflexivity.
Qed.

Lemma add_run (entries : list entry) (texts : list string)
    (vectors : list Embedding) :
  length texts = length vectors ->
  add entries texts vectors = Ok (entries ++ zip_with Entry texts vectors).
Proof.
  intros Hlen. unfold add. rewrite Hlen, Nat.eqb_refl. reflexivity.
Qed.

(** A build whose documents all embed: the new pairs are appended to what
    the name already holds, and the result is persisted. *)
Lemma create_corpus_from_text_run (w : world) (corpus_name corpus_text : string)
    (vectors : list Embedding) :
  corpus_folder w !! corpus_name <> Some UnreadableDir ->
  Forall2 (fun t v => embed t = Some v) (split_text corpus_text) vectors ->
  create_corpus_from_text corpus_name corpus_text w
  = (Ret tt,
     with_corpus_folder
       (insert corpus_name
          (IndexDir (persisted_entries w corpus_name
                     ++ zip_with Entry (split_text corpus_text) vectors)))
       w).
Proof.
  intros Hread Hemb.
  unfold create_corpus_from_text. unfold bind at 1.
  rewrite os_makedirs_run.
  unfold Chroma_from_documents, Chroma_open, Chroma_persist, persisted_entries.
  unfold bind, gets, ret, modify.
  destruct w as [m fs r]. cbn [corpus_folder] in *.
  destruct (m !! corpus_name) as [[|entries|]|] eqn:Hd; try done.
  - cbn [corpus_folder]. rewrite Hd.
    rewrite (embed_documents_run _ _ _ Hemb). cbn [collection].
    rewrite add_run by (eapply Forall2_length, Hemb).
    reflexivity.
  - cbn [corpus_folder]. rewrite Hd.
    rewrite (embed_documents_run _ _ _ Hemb). cbn [collection].
    rewrite add_run by (eapply Forall2_length, Hemb).
    reflexivity.
  - unfold with_corpus_folder. cbn [corpus_folder files_folder
      session_state_rename_corpus]. rewrite lookup_insert_eq.
    rewrite (embed_documents_run _ _ _ Hemb). cbn [collection].
    rewrite add_run by (eapply Forall2_length, Hemb).
    cbn [persist_directory collection corpus_folder files_folder
      session_state_rename_corpus].
    by rewrite insert_insert_eq.
Qed.


Lemma delete_after_create (w : world) (corpus_name : string) (d : dir) :
  corpus_folder w !! corpus_name = None ->
  with_corpus_folder (delete corpus_name)
    (with_corpus_folder (insert corpus_name d) w) = w.
Proof.
  intros Hd. destruct w as [m fs r]. unfold with_corpus_folder.
  cbn [corpus_folder files_folder session_state_rename_corpus] in *.
  by rewrite delete_insert_id.
Qed.

(** C9 (as amended). When the name is a single path component that no
    corpus carries before the first build, and the embedding service
    answers for every segment, build, delete, build again all end without
    an exception, the second build leaves the very state the first one
    left, and so every query on the name returns the same result after
    either. *)
Theorem rebuild_after_delete (w : world)
    (corpus_name corpus_text query : string) :
  path_component corpus_name = true ->
  corpus_folder w !! corpus_name = None ->
  Forall (fun t => is_Some (embed t)) (split_text corpus_text) ->
  let built := create_corpus_from_text corpus_name corpus_text w in
  let deleted := delete_corpus corpus_name built.2 in
  let rebuilt := create_corpus_from_text corpus_name corpus_text deleted.2 in
  built.1 = Ret tt /\ deleted.1 = Rerun /\ rebuilt.1 = Ret tt /\
  rebuilt.2 = built.2 /\
  get_corpus_context_from_db corpus_name query rebuilt.2
  = get_corpus_context_from_db corpus_name query built.2.
Proof.
  intros Hname Hd Hemb built deleted rebuilt.
  destruct (embed_documents_total _ Hemb) as [vectors Hv].
  assert (Hread : corpus_folder w !! corpus_name <> Some UnreadableDir)
    by (rewrite Hd; discriminate).
  assert (Hbuilt : built = (Ret tt,
    with_corpus_folder
      (insert corpus_name
         (IndexDir (persisted_entries w corpus_name
                    ++ zip_with Entry (split_text corpus_text) vectors))) w))
    by (apply create_corpus_from_text_run; assumption).
  assert (Hdeleted : deleted = (Rerun, w)).
  { unfold deleted. rewrite Hbuilt, delete_corpus_run. cbn [snd].
    unfold with_corpus_folder at 1. cbn [corpus_folder].
    rewrite lookup_insert_eq. by rewrite delete_after_create. }
  assert (Hrebuilt : rebuilt = built)
    by (unfold rebuilt; rewrite Hdeleted; reflexivity).
  rewrite Hrebuilt, Hdeleted, Hbuilt. cbn [fst snd]. done.
Qed.

(** ** Renaming *)

Lemma rename_corpus_run (w : world) (old_name new_name : string) :
  session_state_rename_corpus w = Some old_name ->
  nonempty old_name = true ->
  nonempty new_name = true ->
  rename_corpus old_name new_name w
  = (os_rename old_name new_name ;;
     modify (with_rename_corpus None) ;;
     experimental_rerun) w.
Proof.
  intros Hs Ho Hn. unfold rename_corpus, rename_section.
  unfold bind at 1. unfold gets. rewrite Hs, Ho.
  unfold st_button. cbn [clicked rename_corpus_input].
  rewrite bool_decide_eq_true_2 by done. rewrite Hn. reflexivity.
Qed.

Lemma os_rename_missing (w : world) (src dst : string) :
  corpus_folder w !! src = None ->
  os_rename src dst w = (Raise FileNotFoundError, w).
Proof. intros Hs. unfold os_rename, bind, gets. by rewrite Hs. Qed.

Lemma os_rename_same (w : world) (name : string) :
  is_Some (corpus_folder w !! name) ->
  os_rename name name w = (Ret tt, w).
Proof.
  intros [d Hd]. unfold os_rename, bind, gets. rewrite Hd.
  by rewrite decide_True.
Qed.

Lemma os_rename_onto_nonempty (w : world) (src dst : string) (t : dir) :
  src <> dst ->
  is_Some (corpus_folder w !! src) ->
  corpus_folder w !! dst = Some t ->
  t <> EmptyDir ->
  os_rename src dst w = (Raise OSError_ENOTEMPTY, w).
Proof.
  intros Hne [d Hd] Ht Hfull. unfold os_rename, bind, gets. rewrite Hd.
  rewrite decide_False by done. rewrite Ht. by destruct t.
Qed.

Lemma os_rename_onto_empty (w : world) (src dst : string) (d : dir) :
  src <> dst ->
  corpus_folder w !! src = Some d ->
  corpus_folder w !! dst = Some EmptyDir ->
  os_rename src dst w
  = (Ret tt, with_corpus_folder (fun m => <[dst := d]> (delete src m)) w).
Proof.
  intros Hne Hd Ht. unfold os_rename, bind, gets. rewrite Hd.
  rewrite decide_False by done. by rewrite Ht.
Qed.

(** C4 (as amended). A rename onto a name that exists never raises
    [NameConflict]; the page has no check of its own and what happens is
    what [os.rename] does.  Renaming a corpus to its own name succeeds and
    leaves the storage as it is.  Renaming onto another corpus whose
    directory is not empty fails with the error of the operating system
    and leaves the storage as it is, so nothing is overwritten or merged.
    Renaming onto an empty directory replaces it; a source that is gone
    raises [FileNotFoundError]. *)
Theorem rename_onto_existing_name (w : world) (old_name new_name : string)
    (target : dir) :
  session_state_rename_corpus w = Some old_name ->
  nonempty old_name = true ->
  nonempty new_name = true ->
  corpus_folder w !! new_name = Some target ->
  (rename_corpus old_name new_name w).1 <> Raise NameConflict /\
  (new_name = old_name ->
   rename_corpus old_name new_name w = (Rerun, with_rename_corpus None w)) /\
  (new_name <> old_name -> is_Some (corpus_folder w !! old_name) ->
   target <> EmptyDir ->
   rename_corpus old_name new_name w = (Raise OSError_ENOTEMPTY, w)) /\
  (forall source, new_name <> old_name ->
   corpus_folder w !! old_name = Some source -> target = EmptyDir ->
   rename_corpus old_name new_name w
   = (Rerun,
      with_rename_corpus None
        (with_corpus_folder
           (fun m => <[new_name := source]> (delete old_name m)) w))) /\
  (corpus_folder w !! old_name = None ->
   rename_corpus old_name new_name w = (Raise FileNotFoundError, w)).
Proof.
  intros Hs Ho Hn Ht. rewrite rename_corpus_run by assumption.
  split; [|split; [|split; [|split]]].
  - unfold bind at 1.
    destruct (corpus_folder w !! old_name) as [source|] eqn:Hsrc.
    + destruct (decide (old_name = new_name)) as [->|Hne].
      * rewrite os_rename_same by eauto. discriminate.
      * destruct target as [|entries|].
        -- rewrite (os_rename_onto_empty w old_name new_name source) by done.
           discriminate.
        -- rewrite (os_rename_onto_nonempty w old_name new_name
                      (IndexDir entries)) by eauto.
           discriminate.
        -- rewrite (os_rename_onto_nonempty w old_name new_name UnreadableDir)
             by eauto.
           discriminate.
    + rewrite os_rename_missing by done. discriminate.
  - intros ->. unfold bind at 1. rewrite os_rename_same by eauto. reflexivity.
  - intros Hne Hsrc Hfull. unfold bind at 1.
    by rewrite (os_rename_onto_nonempty w old_name new_name target).
  - intros source Hne Hsrc ->. unfold bind at 1.
    by rewrite (os_rename_onto_empty w old_name new_name source).
  - intros Hsrc. unfold bind at 1. by rewrite os_rename_missing.
Qed.

(** ** Building from files *)

Lemma read_text_run (w : world) (m : gmap string file) (name content : string) :
  files_folder w = Some m ->
  m !! name = Some (TextFile content) ->
  read_text name w = (Ret content, w).
Proof.
  intros Hfs Hf. unfold read_text, bind, gets. by rewrite Hfs, Hf.
Qed.




(** ** More of the page: what a run does and does not touch *)

Lemma bind_ext {A B} (m : M A) (k k' : A -> M B) (w : world) :
  (forall a w', k a w' = k' a w') -> bind m k w = bind m k' w.
Proof.
  intros Hk. unfold bind. destruct (m w) as [[a| |e] w']; [apply Hk|done..].
Qed.

Lemma existing_corpus_rows_clicked (ui ui' : widgets)
    (corpus_list : list string) (w : world) :
  clicked ui = clicked ui' ->
  existing_corpus_rows ui corpus_list w
  = existing_corpus_rows ui' corpus_list w.
Proof.
  intros Hc. revert w.
  induction corpus_list as [|corpus rest IH]; intros w; [reflexivity|].
  cbn [existing_corpus_rows]. unfold st_button. rewrite Hc.
  apply bind_ext. intros _ w1. apply bind_ext. intros _ w2. apply IH.
Qed.

Lemma existing_corpus_rows_rename (name : string) (corpus_list : list string)
    (w : world) :
  existing_corpus_rows (Widgets (Some (RenameButton name)) "" [] "")
    corpus_list w
  = if decide (name ∈ corpus_list)
    then (Rerun, with_rename_corpus (Some name) w)
    else (Ret tt, w).
Proof.
  induction corpus_list as [|corpus rest IH].
  - rewrite decide_False by apply not_elem_of_nil. reflexivity.
  - cbn [existing_corpus_rows]. unfold st_button. cbn [clicked].
    destruct (decide (name = corpus)) as [->|Hne].
    + rewrite bool_decide_eq_true_2 by done.
      rewrite decide_True by apply list_elem_of_here. reflexivity.
    + rewrite bool_decide_eq_false_2 by congruence.
      rewrite (bool_decide_eq_false_2 (Some (RenameButton name)
                                       = Some (DeleteButton corpus))) by done.
      unfold bind at 1 2. unfold ret at 1 2. rewrite IH.
      destruct (decide (name ∈ rest)) as [Hin|Hnin].
      * rewrite decide_True by (apply list_elem_of_further, Hin). reflexivity.
      * rewrite decide_False; [reflexivity|].
        intros Hin. apply elem_of_cons in Hin as [?|?]; done.
Qed.

Lemma existing_corpus_rows_idle (ui : widgets) (corpus_list : list string)
    (w : world) :
  (forall c, clicked ui <> Some (RenameButton c)) ->
  (forall c, clicked ui <> Some (DeleteButton c)) ->
  existing_corpus_rows ui corpus_list w = (Ret tt, w).
Proof.
  intros Hr Hd.
  induction corpus_list as [|corpus rest IH]; [reflexivity|].
  cbn [existing_corpus_rows]. unfold st_button.
  rewrite !bool_decide_eq_false_2 by done.
  unfold bind at 1 2. unfold ret at 1 2. exact IH.
Qed.

Lemma listed_iff (w : world) (name : string) :
  name ∈ elements (dom (corpus_folder w)) <-> is_Some (corpus_folder w !! name).
Proof. by rewrite elem_of_elements, elem_of_dom. Qed.

(** Opening the rename form.  A click on the rename button of a listed
    corpus records the corpus in the session state and reruns the page; the
    storage is not touched.  For a name that is not listed there is no such
    button and the run goes on with nothing changed. *)
Theorem rename_button_opens_form (ui : widgets) (w : world)
    (corpus_name : string) :
  clicked ui = Some (RenameButton corpus_name) ->
  existing_corpus_section ui w
  = match corpus_folder w !! corpus_name with
    | Some _ => (Rerun, with_rename_corpus (Some corpus_name) w)
    | None => (Ret tt, w)
    end.
Proof.
  intros Hc. unfold existing_corpus_section, listdir_corpus_folder.
  unfold bind at 1. unfold gets.
  rewrite (existing_corpus_rows_clicked ui
             (Widgets (Some (RenameButton corpus_name)) "" [] "")) by done.
  rewrite existing_corpus_rows_rename.
  destruct (corpus_folder w !! corpus_name) as [d|] eqn:Hd.
  - rewrite decide_True; [reflexivity|]. apply listed_iff. rewrite Hd. eauto.
  - rewrite decide_False; [reflexivity|].
    rewrite listed_iff, Hd. apply is_Some_None.
Qed.

Lemma rename_section_idle (ui : widgets) (w : world) :
  (forall c, clicked ui <> Some (ConfirmRename c)) ->
  rename_section ui w = (Ret tt, w).
Proof.
  intros Hc. unfold rename_section, bind, gets.
  destruct (session_state_rename_corpus w) as [c|]; [|reflexivity].
  destruct (nonempty c); [|reflexivity].
  unfold st_button. by rewrite bool_decide_eq_false_2.
Qed.

(** A run of the page in which no button was clicked changes nothing, and
    it needs the files folder: the listing of the files raises
    [FileNotFoundError] while that folder does not exist, since
    [manage_corpus] makes the corpus folder but not the files folder. *)
Theorem manage_corpus_idle (ui : widgets) (w : world) :
  clicked ui = None ->
  manage_corpus ui w
  = (match files_folder w with
     | Some _ => Ret tt
     | None => Raise FileNotFoundError
     end, w).
Proof.
  intros Hc. unfold manage_corpus, existing_corpus_section,
    listdir_corpus_folder.
  unfold bind at 1 2. unfold gets at 1.
  rewrite existing_corpus_rows_idle by (intros c; rewrite Hc; discriminate).
  unfold bind at 1.
  rewrite rename_section_idle by (intros c; rewrite Hc; discriminate).
  unfold create_section, listdir_files_folder, bind, gets.
  destruct (files_folder w) as [m|]; [|reflexivity].
  unfold ret at 1. unfold st_button.
  rewrite bool_decide_eq_false_2 by (rewrite Hc; discriminate).
  reflexivity.
Qed.

(** A click on the delete button of a listed corpus, on the whole page:
    the run ends in a rerun right after the directory is removed, so the
    rest of the page is not run (a missing files folder does not matter),
    every other corpus keeps its directory, and the session state is as it
    was: a rename form that was open for the deleted corpus stays open. *)
Theorem manage_corpus_delete (ui : widgets) (w : world)
    (corpus_name : string) :
  clicked ui = Some (DeleteButton corpus_name) ->
  is_Some (corpus_folder w !! corpus_name) ->
  manage_corpus ui w = (Rerun, with_corpus_folder (delete corpus_name) w) /\
  (forall other, other <> corpus_name ->
     corpus_folder (manage_corpus ui w).2 !! other = corpus_folder w !! other) /\
  session_state_rename_corpus (manage_corpus ui w).2
  = session_state_rename_corpus w.
Proof.
  intros Hc [d Hd].
  assert (Hrun : manage_corpus ui w
                 = (Rerun, with_corpus_folder (delete corpus_name) w)).
  { unfold manage_corpus. unfold bind at 1.
    unfold existing_corpus_section, listdir_corpus_folder.
    unfold bind at 1. unfold gets.
    rewrite (existing_corpus_rows_clicked ui
               (Widgets (Some (DeleteButton corpus_name)) "" [] "")) by done.
    rewrite existing_corpus_rows_delete
      by (intros c Hin; by apply listed_iff).
    rewrite decide_True; [reflexivity|]. apply listed_iff. eauto. }
  rewrite Hrun. split; [reflexivity|]. split; [|reflexivity].
  intros other Hne. cbn. by rewrite lookup_delete_ne.
Qed.

(** The rename form outlives its corpus: after the corpus of the open form
    is deleted, "Confirm Rename" raises [FileNotFoundError], renames
    nothing and leaves the form open. *)
Theorem rename_after_delete (w : world) (corpus_name new_name : string) :
  session_state_rename_corpus w = Some corpus_name ->
  nonempty corpus_name = true ->
  nonempty new_name = true ->
  let deleted := (delete_corpus corpus_name w).2 in
  rename_corpus corpus_name new_name deleted
  = (Raise FileNotFoundError, deleted) /\
  session_state_rename_corpus deleted = Some corpus_name.
Proof.
  intros Hs Ho Hn deleted.
  assert (Hs' : session_state_rename_corpus deleted = Some corpus_name).
  { unfold deleted. rewrite delete_corpus_run.
    by destruct (corpus_folder w !! corpus_name). }
  split; [|exact Hs'].
  rewrite rename_corpus_run by assumption.
  unfold bind at 1.
  rewrite os_rename_missing by apply delete_corpus_absent_after.
  reflexivity.
Qed.

Lemma get_corpus_context_lookup (w1 w2 : world) (name1 name2 query : string) :
  corpus_folder w1 !! name1 = corpus_folder w2 !! name2 ->
  (get_corpus_context_from_db name1 query w1).1
  = (get_corpus_context_from_db name2 query w2).1.
Proof.
  intros Heq. unfold get_corpus_context_from_db, Chroma_open, bind, gets.
  rewrite Heq.
  destruct (corpus_folder w2 !! name2) as [[|entries|]|];
    unfold ret, raise, Chroma_similarity_search; cbn [collection fst];
    try reflexivity;
    destruct (embed query) as [q|]; try reflexivity;
    match goal with
    | |- context [search similarity ?es q 3] =>
        destruct (search similarity es q 3); reflexivity
    end.
Qed.

Lemma os_rename_fresh (w : world) (src dst : string) (d : dir) :
  corpus_folder w !! src = Some d ->
  corpus_folder w !! dst = None ->
  os_rename src dst w
  = (Ret tt, with_corpus_folder (fun m => <[dst := d]> (delete src m)) w).
Proof.
  intros Hs Hd. unfold os_rename, bind, gets. rewrite Hs.
  rewrite decide_False by (intros ->; congruence). by rewrite Hd.
Qed.

Lemma path_component_nonempty (name : string) :
  path_component name = true -> nonempty name = true.
Proof.
  unfold path_component. intros Hname.
  by repeat (apply andb_prop in Hname as [Hname _]).
Qed.

(** Renaming to a free name moves the corpus, when the new name is a
    single path component.  The directory is found under the new name and
    no longer under the old one, no other corpus is touched, the form is
    closed and the page reruns; a query under the new name returns what
    the same query returned under the old name. *)
Theorem rename_to_free_name (w : world) (old_name new_name query : string)
    (source : dir) :
  session_state_rename_corpus w = Some old_name ->
  nonempty old_name = true ->
  path_component new_name = true ->
  corpus_folder w !! old_name = Some source ->
  corpus_folder w !! new_name = None ->
  let renamed := rename_corpus old_name new_name w in
  renamed.1 = Rerun /\
  corpus_folder renamed.2 !! new_name = Some source /\
  corpus_folder renamed.2 !! old_name = None /\
  (forall other, other <> old_name -> other <> new_name ->
     corpus_folder renamed.2 !! other = corpus_folder w !! other) /\
  session_state_rename_corpus renamed.2 = None /\
  (get_corpus_context_from_db new_name query renamed.2).1
  = (get_corpus_context_from_db old_name query w).1.
Proof.
  intros Hs Ho Hname Hsrc Hnew renamed.
  assert (Hn : nonempty new_name = true) by (by apply path_component_nonempty).
  assert (Hne : old_name <> new_name) by (intros ->; congruence).
  assert (Hrun : renamed
    = (Rerun, with_rename_corpus None
                (with_corpus_folder
                   (fun m => <[new_name := source]> (delete old_name m)) w))).
  { unfold renamed. rewrite rename_corpus_run by assumption.
    unfold bind at 1. by rewrite (os_rename_fresh w old_name new_name source). }
  assert (Hlook : corpus_folder renamed.2 !! new_name = Some source).
  { rewrite Hrun. cbn. apply lookup_insert_eq. }
  rewrite Hrun in *. cbn [fst snd] in *.
  split; [reflexivity|]. split; [exact Hlook|]. split; [|split; [|split]].
  - cbn. rewrite lookup_insert_ne by done. apply lookup_delete_eq.
  - intros other H1 H2. cbn.
    rewrite lookup_insert_ne by done. by rewrite lookup_delete_ne.
  - reflexivity.
  - apply get_corpus_context_lookup. by rewrite Hlook, Hsrc.
Qed.

(** "Confirm Rename" with nothing typed, or for a form that is not the
    open one, renames nothing and changes nothing. *)
Theorem rename_not_confirmed (w : world) (old_name new_name : string) :
  new_name = "" \/ session_state_rename_corpus w <> Some old_name ->
  rename_corpus old_name new_name w = (Ret tt, w).
Proof.
  intros Hcase. unfold rename_corpus, rename_section, bind, gets.
  destruct (session_state_rename_corpus w) as [c|] eqn:Hs; [|reflexivity].
  destruct (nonempty c); [|reflexivity].
  unfold st_button. cbn [clicked rename_corpus_input].
  destruct (decide (old_name = c)) as [->|Hne].
  - destruct Hcase as [->|Hcase]; [|done].
    rewrite bool_decide_eq_true_2 by done. reflexivity.
  - rewrite bool_decide_eq_false_2 by congruence. reflexivity.
Qed.

(** The create button builds only when a file is selected and a name is
    typed; with either missing the run changes nothing. *)
Theorem create_button_needs_both (ui : widgets) (w : world)
    (m : gmap string file) :
  clicked ui = Some CreateCorpusButton ->
  files_folder w = Some m ->
  create_corpus_files ui = [] \/ create_corpus_name ui = "" ->
  manage_corpus ui w = (Ret tt, w).
Proof.
  intros Hc Hfs Hmissing. unfold manage_corpus, existing_corpus_section,
    listdir_corpus_folder.
  unfold bind at 1 2. unfold gets at 1.
  rewrite existing_corpus_rows_idle by (intros c; rewrite Hc; discriminate).
  unfold bind at 1.
  rewrite rename_section_idle by (intros c; rewrite Hc; discriminate).
  unfold create_section, listdir_files_folder, bind, gets. rewrite Hfs.
  unfold ret at 1. unfold st_button.
  rewrite bool_decide_eq_true_2 by done.
  destruct Hmissing as [-> | ->].
  - rewrite bool_decide_eq_true_2 by done. reflexivity.
  - rewrite andb_false_r. reflexivity.
Qed.

Lemma combine_files_world (selected_files : list string) (all_text : string)
    (w : world) :
  (combine_files selected_files all_text w).2 = w.
Proof.
  revert all_text. induction selected_files as [|f rest IH]; intros all_text;
    [reflexivity|].
  cbn [combine_files]. unfold read_text, bind, gets.
  destruct (files_folder w) as [m|]; [|reflexivity].
  destruct (m !! f) as [[content|]|]; [|reflexivity..].
  apply IH.
Qed.

Lemma combine_files_unreadable (w : world) (m : gmap string file)
    (good documents : list string) (bad : string) (rest : list string)
    (all_text : string) :
  files_folder w = Some m ->
  Forall2 (fun f doc => m !! f = Some (TextFile doc)) good documents ->
  (forall content, m !! bad <> Some (TextFile content)) ->
  combine_files (good ++ bad :: rest) all_text w
  = (Raise (match m !! bad with
            | None => FileNotFoundError
            | Some _ => UnicodeDecodeError
            end), w).
Proof.
  intros Hfs Hgood Hbad. revert all_text.
  induction Hgood as [|f doc fs docs Hf _ IH]; intros all_text.
  - cbn [app combine_files]. unfold read_text, bind, gets. rewrite Hfs.
    destruct (m !! bad) as [[content|]|] eqn:E; [|reflexivity..].
    by destruct (Hbad content).
  - cbn [app combine_files]. unfold bind at 1.
    rewrite (read_text_run w m f doc) by done. apply IH.
Qed.

(** A file that cannot be read stops the build from files, but only after
    the directory of the corpus has been made: for a name that is a single
    path component, the run ends with [FileNotFoundError] for a missing
    file and [UnicodeDecodeError] for one that is not text, nothing is
    indexed, and a name that was free now carries an empty directory,
    which the page lists as a corpus. *)
Theorem create_corpus_from_files_unreadable (w : world)
    (m : gmap string file) (corpus_name : string)
    (good documents : list string) (bad : string) (rest : list string) :
  path_component corpus_name = true ->
  files_folder w = Some m ->
  Forall2 (fun f doc => m !! f = Some (TextFile doc)) good documents ->
  (forall content, m !! bad <> Some (TextFile content)) ->
  create_corpus_from_files corpus_name (good ++ bad :: rest) w
  = (Raise (match m !! bad with
            | None => FileNotFoundError
            | Some _ => UnicodeDecodeError
            end),
     match corpus_folder w !! corpus_name with
     | Some _ => w
     | None => with_corpus_folder (insert corpus_name EmptyDir) w
     end).
Proof.
  intros Hname Hfs Hgood Hbad. unfold create_corpus_from_files.
  unfold bind at 1. rewrite os_makedirs_run.
  set (w0 := match corpus_folder w !! corpus_name with
             | Some _ => w
             | None => with_corpus_folder (insert corpus_name EmptyDir) w
             end).
  assert (Hfs0 : files_folder w0 = Some m)
    by (unfold w0; by destruct (corpus_folder w !! corpus_name)).
  unfold bind.
  by rewrite (combine_files_unreadable w0 m good documents bad rest).
Qed.

Lemma embed_documents_world (texts : list string) (w : world) :
  (embed_documents texts w).2 = w.
Proof.
  induction texts as [|t rest IH]; [reflexivity|].
  cbn [embed_documents]. destruct (embed t); [|reflexivity].
  unfold bind. destruct (embed_documents rest w) as [[vs| |err] w'];
    cbn in *; by subst.
Qed.

Lemma embed_documents_unavailable (texts : list string) (w : world) :
  Exists (fun t => embed t = None) texts ->
  embed_documents texts w = (Raise EmbeddingUnavailable, w).
Proof.
  induction texts as [|t rest IH]; intros Hex; [by inv Hex|].
  cbn [embed_documents]. destruct (embed t) as [v|] eqn:Ht; [|reflexivity].
  apply Exists_cons in Hex as [Hhd|Htl]; [congruence|].
  unfold bind. by rewrite IH.
Qed.

(** When the embedding service fails on a segment, the build raises
    [EmbeddingUnavailable] before anything is persisted: for a name that
    is a single path component, the entries under the name are what they
    were, and the only trace is the directory made at the start. *)
Theorem create_corpus_embedding_unavailable (w : world)
    (corpus_name corpus_text : string) :
  path_component corpus_name = true ->
  corpus_folder w !! corpus_name <> Some UnreadableDir ->
  Exists (fun t => embed t = None) (split_text corpus_text) ->
  create_corpus_from_text corpus_name corpus_text w
  = (Raise EmbeddingUnavailable,
     match corpus_folder w !! corpus_name with
     | Some _ => w
     | None => with_corpus_folder (insert corpus_name EmptyDir) w
     end) /\
  persisted_entries (create_corpus_from_text corpus_name corpus_text w).2
    corpus_name
  = persisted_entries w corpus_name.
Proof.
  intros Hname Hread Hex.
  assert (Hrun : create_corpus_from_text corpus_name corpus_text w
    = (Raise EmbeddingUnavailable,
       match corpus_folder w !! corpus_name with
       | Some _ => w
       | None => with_corpus_folder (insert corpus_name EmptyDir) w
       end)).
  { unfold create_corpus_from_text. unfold bind at 1.
    rewrite os_makedirs_run.
    unfold Chroma_from_documents, Chroma_open, bind, gets.
    destruct (corpus_folder w !! corpus_name) as [[|entries|]|] eqn:Hd;
      try done.
    - rewrite Hd. unfold ret at 1.
      by rewrite embed_documents_unavailable.
    - rewrite Hd. unfold ret at 1.
      by rewrite embed_documents_unavailable.
    - unfold with_corpus_folder at 1. cbn [corpus_folder].
      rewrite lookup_insert_eq. unfold ret at 1.
      by rewrite embed_documents_unavailable. }
  split; [exact Hrun|]. rewrite Hrun. cbn [snd]. unfold persisted_entries.
  destruct (corpus_folder w !! corpus_name) as [d|] eqn:Hd.
  - by rewrite Hd.
  - cbn. by rewrite lookup_insert_eq.
Qed.

(** Building again without deleting adds the segments a second time: after
    two builds from the same text the name holds what it held at first,
    then the new pairs, then the new pairs once more. *)
Theorem create_corpus_twice_duplicates (w : world)
    (corpus_name corpus_text : string) (vectors : list Embedding) :
  corpus_folder w !! corpus_name <> Some UnreadableDir ->
  Forall2 (fun t v => embed t = Some v) (split_text corpus_text) vectors ->
  let once := create_corpus_from_text corpus_name corpus_text w in
  let twice := create_corpus_from_text corpus_name corpus_text once.2 in
  let pairs := zip_with Entry (split_text corpus_text) vectors in
  once.1 = Ret tt /\ twice.1 = Ret tt /\
  persisted_entries once.2 corpus_name
  = persisted_entries w corpus_name ++ pairs /\
  persisted_entries twice.2 corpus_name
  = persisted_entries w corpus_name ++ pairs ++ pairs.
Proof.
  intros Hread Hemb once twice pairs.
  assert (Hafter : forall w' es,
    persisted_entries
      (with_corpus_folder (insert corpus_name (IndexDir es)) w') corpus_name
    = es).
  { intros w' es. unfold persisted_entries. cbn.
    by rewrite lookup_insert_eq. }
  assert (Honce : once = (Ret tt,
    with_corpus_folder
      (insert corpus_name
         (IndexDir (persisted_entries w corpus_name ++ pairs))) w))
    by (by apply create_corpus_from_text_run).
  assert (Htwice : twice = (Ret tt,
    with_corpus_folder
      (insert corpus_name
         (IndexDir (persisted_entries once.2 corpus_name ++ pairs))) once.2)).
  { apply create_corpus_from_text_run; [|done].
    rewrite Honce. cbn. by rewrite lookup_insert_eq. }
  rewrite Htwice. cbn [fst snd]. rewrite Hafter.
  rewrite Honce. cbn [fst snd]. rewrite Hafter.
  by rewrite <- app_assoc.
Qed.

Lemma same_elsewhere_refl (name : string) (w : world) :
  same_elsewhere name w w.
Proof. by repeat split. Qed.

Lemma same_elsewhere_insert (name : string) (d : dir) (w w' : world) :
  same_elsewhere name w w' ->
  same_elsewhere name w (with_corpus_folder (insert name d) w').
Proof.
  intros (Hf & Hs & Hc). repeat split; [done..|].
  intros other Hne. cbn. rewrite lookup_insert_ne by done. by apply Hc.
Qed.

Lemma os_makedirs_elsewhere (name : string) (w : world) :
  same_elsewhere name w (os_makedirs name w).2.
Proof.
  rewrite os_makedirs_run. cbn [snd].
  destruct (corpus_folder w !! name).
  - apply same_elsewhere_refl.
  - apply same_elsewhere_insert, same_elsewhere_refl.
Qed.

Lemma create_corpus_from_text_elsewhere (corpus_name corpus_text : string)
    (w0 w : world) :
  same_elsewhere corpus_name w0 w ->
  same_elsewhere corpus_name w0
    (create_corpus_from_text corpus_name corpus_text w).2.
Proof.
  intros Hw. unfold create_corpus_from_text. unfold bind at 1.
  rewrite os_makedirs_run.
  set (w1 := match corpus_folder w !! corpus_name with
             | Some _ => w
             | None => with_corpus_folder (insert corpus_name EmptyDir) w
             end).
  assert (Hw1 : same_elsewhere corpus_name w0 w1).
  { unfold w1. destruct (corpus_folder w !! corpus_name);
      [done|by apply same_elsewhere_insert]. }
  clearbody w1.
  unfold Chroma_from_documents, Chroma_open, Chroma_persist.
  unfold bind, gets, ret, raise, modify.
  pose proof (embed_documents_world (split_text corpus_text) w1) as Hemb.
  destruct (corpus_folder w1 !! corpus_name) as [[|entries|]|];
    try done;
    destruct (embed_documents (split_text corpus_text) w1) as [[vs| |err] w2];
    cbn [snd] in Hemb; subst w2; try done;
    cbn [collection];
    match goal with
    | |- context [add ?es ?ts ?vs] => destruct (add es ts vs)
    end; try done;
    by apply same_elsewhere_insert.
Qed.

(** Building a corpus whose name is a single path component touches
    nothing but the directory of that name.  However the build ends, with
    success or with any exception, every other corpus has the directory it
    had, and the files folder and the session state are as they were. *)
Theorem create_corpus_elsewhere (w : world) (corpus_name corpus_text : string)
    (selected_files : list string) :
  path_component corpus_name = true ->
  same_elsewhere corpus_name w
    (create_corpus_from_text corpus_name corpus_text w).2 /\
  same_elsewhere corpus_name w
    (create_corpus_from_files corpus_name selected_files w).2.
Proof.
  intros Hname. split.
  - apply create_corpus_from_text_elsewhere, same_elsewhere_refl.
  - unfold create_corpus_from_files. unfold bind at 1.
    pose proof (os_makedirs_elsewhere corpus_name w) as Hmk.
    destruct (os_makedirs corpus_name w) as [[[]| |err] w1] eqn:Erun;
      cbn [snd] in *; try done.
    unfold bind.
    pose proof (combine_files_world selected_files "" w1) as Hcomb.
    destruct (combine_files selected_files "" w1) as [[text| |err] w2];
      cbn [snd] in *; subst w2; try done.
    by apply create_corpus_from_text_elsewhere.
Qed.

(** ** [get_corpus_context] *)

Lemma progress_loop_run (total_chars chars_processed : nat)
    (chunks : list string) :
  progress_loop total_chars chars_processed chunks = Ok chunks <->
  chunks = [] \/
  ((0 < total_chars)%nat /\
   (chars_processed + total_length chunks <= total_chars)%nat).
Proof.
  revert chars_processed. induction chunks as [|chunk rest IH];
    intros chars_processed.
  - split; [by left|reflexivity].
  - cbn [progress_loop total_length foldr]. fold (total_length rest).
    destruct (Nat.eqb_spec total_chars 0) as [->|Hpos].
    { split; [discriminate|]. intros [?|[? _]]; [done|lia]. }
    destruct (Nat.leb_spec (chars_processed + String.length chunk) total_chars)
      as [Hle|Hgt].
    + destruct (progress_loop total_chars
                  (chars_processed + String.length chunk) rest) as [texts|e]
        eqn:Hrest.
      * split.
        -- intros [= ->]. right. split; [lia|].
           apply IH in Hrest as [->|[_ Hsum]]; [cbn; lia|lia].
        -- intros [?|[_ Hsum]]; [done|]. f_equal.
           assert (Hok : progress_loop total_chars
                           (chars_processed + String.length chunk) rest
                         = Ok rest) by (apply IH; right; lia).
           congruence.
      * split; [discriminate|]. intros [?|[_ Hsum]]; [done|].
        assert (Hok : progress_loop total_chars
                        (chars_processed + String.length chunk) rest
                      = Ok rest) by (apply IH; right; lia).
        congruence.
    + split; [discriminate|]. intros [?|[_ Hsum]]; [done|lia].
Qed.

(** The progress bar decides whether the loop over the chunks ends.  It
    does when there is no chunk, or when the file is not empty and the
    chunks together are no longer than the file; a chunk of an empty file
    divides by zero, and chunks longer than the file push the ratio above
    one. *)
Theorem progress_loop_succeeds (total_chars : nat) (chunks : list string) :
  (progress_loop total_chars 0 chunks = Ok chunks <->
   chunks = [] \/
   ((0 < total_chars)%nat /\ (total_length chunks <= total_chars)%nat)) /\
  (chunks <> [] -> total_chars = O ->
   progress_loop total_chars 0 chunks = Err ZeroDivision).
Proof.
  split.
  - apply progress_loop_run.
  - intros Hne ->. by destruct chunks.
Qed.

Lemma embed_all_run (texts : list string) (vectors : list Embedding) :
  Forall2 (fun t v => embed t = Some v) texts vectors ->
  embed_all texts = Some vectors.
Proof.
  induction 1 as [|t v texts vectors Ht _ IH]; [reflexivity|].
  cbn [embed_all]. by rewrite Ht, IH.
Qed.

Lemma get_corpus_context_run (ws : workspace) (m : gmap string file)
    (corpus_file query corpus_text : string) (vectors : list Embedding)
    (q : Embedding) :
  ws_files ws = Some m ->
  m !! corpus_file = Some (TextFile corpus_text) ->
  progress_loop (String.length corpus_text) 0 (split_text corpus_text)
  = Ok (split_text corpus_text) ->
  chroma_db ws <> Some UnreadableDir ->
  Forall2 (fun t v => embed t = Some v) (split_text corpus_text) vectors ->
  embed query = Some q ->
  let entries := stored_entries ws
                 ++ zip_with Entry (split_text corpus_text) vectors in
  get_corpus_context corpus_file query ws
  = (Ok (Text.join Text.nl
           (page_content <$> take 3 (ranked similarity q entries))),
     Workspace (Some m) (Some (IndexDir entries))).
Proof.
  intros Hfs Hfile Hprog Hread Hemb Hq entries.
  unfold get_corpus_context. rewrite Hfs, Hfile, Hprog.
  rewrite (embed_all_run _ _ Hemb).
  assert (Hadd : forall es,
    add es (split_text corpus_text) vectors
    = Ok (es ++ zip_with Entry (split_text corpus_text) vectors))
    by (intros es; apply add_run; eapply Forall2_length, Hemb).
  unfold entries, stored_entries.
  destruct (chroma_db ws) as [[|es|]|]; try done;
    rewrite Hadd, Hq; unfold search; cbn [Z.leb Z.compare];
    rewrite map_map; reflexivity.
Qed.

(** Every call adds the chunks of its file to the one store
    ["./chroma_db"].  After a call for one file and a call for another,
    the store holds what it held, then the pairs of the first file, then
    those of the second, and the answer to the second query is drawn from
    all of them: the three nearest texts among the chunks of both files
    and of every earlier call. *)
Theorem get_corpus_context_accumulates (ws : workspace)
    (m : gmap string file) (file1 file2 query1 query2 text1 text2 : string)
    (vectors1 vectors2 : list Embedding) (q1 q2 : Embedding) :
  ws_files ws = Some m ->
  m !! file1 = Some (TextFile text1) ->
  m !! file2 = Some (TextFile text2) ->
  progress_loop (String.length text1) 0 (split_text text1)
  = Ok (split_text text1) ->
  progress_loop (String.length text2) 0 (split_text text2)
  = Ok (split_text text2) ->
  chroma_db ws <> Some UnreadableDir ->
  Forall2 (fun t v => embed t = Some v) (split_text text1) vectors1 ->
  Forall2 (fun t v => embed t = Some v) (split_text text2) vectors2 ->
  embed query1 = Some q1 ->
  embed query2 = Some q2 ->
  let pairs1 := zip_with Entry (split_text text1) vectors1 in
  let pairs2 := zip_with Entry (split_text text2) vectors2 in
  let first := get_corpus_context file1 query1 ws in
  let second := get_corpus_context file2 query2 first.2 in
  chroma_db first.2 = Some (IndexDir (stored_entries ws ++ pairs1)) /\
  chroma_db second.2
  = Some (IndexDir (stored_entries ws ++ pairs1 ++ pairs2)) /\
  second.1
  = Ok (Text.join Text.nl
          (page_content
             <$> take 3 (ranked similarity q2
                           (stored_entries ws ++ pairs1 ++ pairs2)))).
Proof.
  intros Hfs Hf1 Hf2 Hp1 Hp2 Hread He1 He2 Hq1 Hq2 pairs1 pairs2 first second.
  assert (Hfirst : first
    = (Ok (Text.join Text.nl
             (page_content
                <$> take 3 (ranked similarity q1 (stored_entries ws ++ pairs1)))),
       Workspace (Some m) (Some (IndexDir (stored_entries ws ++ pairs1)))))
    by (by apply get_corpus_context_run).
  assert (Hsecond : second
    = (Ok (Text.join Text.nl
             (page_content
                <$> take 3 (ranked similarity q2
                              ((stored_entries ws ++ pairs1) ++ pairs2)))),
       Workspace (Some m)
         (Some (IndexDir ((stored_entries ws ++ pairs1) ++ pairs2))))).
  { unfold second. rewrite Hfirst. cbn [snd].
    rewrite (get_corpus_context_run _ m file2 query2 text2 vectors2 q2);
      [reflexivity|done..]. }
  rewrite Hsecond, Hfirst. cbn [fst snd chroma_db].
  by rewrite <- !app_assoc.
Qed.

(*MORE_CORPUS_FACTS*)

End CorpusManager.

(** * The corpus functions on concrete states *)





Lemma delete_corpus_idempotent_witness :
  corpus_folder Fixture.empty_world !! "ghost" = None /\
  delete_corpus "ghost" Fixture.empty_world = (Ret tt, Fixture.empty_world).
Proof.
  split; [reflexivity|].
  apply (proj1 (delete_corpus_idempotent Fixture.empty_world "ghost")).
  reflexivity.
Defined.

(** C4, counterexample. The corpus ["c"] exists and is renamed to ["c"],
    the name the form proposes: the rename succeeds, the page reruns, and
    no [NameConflict] is raised. *)
Lemma rename_to_own_name_succeeds :
  corpus_folder Fixture.one_corpus !! "c" = Some (IndexDir []) /\
  rename_corpus "c" "c" Fixture.one_corpus
  = (Rerun, with_rename_corpus None Fixture.one_corpus).
Proof. split; reflexivity. Qed.

Lemma rename_onto_existing_name_witness :
  session_state_rename_corpus Fixture.two_corpora = Some "a" /\
  corpus_folder Fixture.two_corpora !! "b" = Some (IndexDir []) /\
  rename_corpus "a" "b" Fixture.two_corpora
  = (Raise OSError_ENOTEMPTY, Fixture.two_corpora).
Proof.
  split; [reflexivity|]. split; [reflexivity|].
  apply (proj1 (proj2 (proj2
    (rename_onto_existing_name Fixture.two_corpora "a" "b" (IndexDir [])
       eq_refl eq_refl eq_refl eq_refl)))).
  - discriminate.
  - exists (IndexDir [VectorIndex.Entry "x" [1%Q]]). reflexivity.
  - discriminate.
Defined.


(** C9, counterexample. The corpus ["c"] already holds the text ["xy"].
    A first build from ["hello"] adds to it, so the query ["ab"] has
    ["xy"] as its top match; after delete and rebuild only ["hello"] is
    there, and the same query has ["hello"] as its top match. *)
Lemma rebuild_over_old_corpus_differs :
  let build := create_corpus_from_text Fixture.embed Fixture.split_text in
  let query := get_corpus_context_from_db Fixture.embed Fixture.similarity in
  let built := build "c" "hello" Fixture.old_corpus in
  let deleted := delete_corpus "c" built.2 in
  let rebuilt := build "c" "hello" deleted.2 in
  built.1 = Ret tt /\ deleted.1 = Rerun /\ rebuilt.1 = Ret tt /\
  (query "c" "ab" built.2).1 = Ret ("xy" +:+ Text.nl +:+ "hello") /\
  (query "c" "ab" rebuilt.2).1 = Ret "hello".
Proof. vm_compute. repeat split. Qed.

Lemma rebuild_after_delete_witness :
  let build := create_corpus_from_text Fixture.embed Fixture.split_text in
  let query := get_corpus_context_from_db Fixture.embed Fixture.similarity in
  path_component "c" = true /\
  corpus_folder Fixture.empty_world !! "c" = None /\
  (build "c" "hello" (delete_corpus "c"
     (build "c" "hello" Fixture.empty_world).2).2).2
  = (build "c" "hello" Fixture.empty_world).2.
Proof.
  split; [reflexivity|]. split; [reflexivity|].
  refine (proj1 (proj2 (proj2 (proj2
    (rebuild_after_delete Fixture.embed Fixture.similarity Fixture.split_text
       Fixture.empty_world "c" "hello" "ab" eq_refl eq_refl _))))).
  repeat constructor. by eexists.
Defined.


(** ** Instances of the theorems on the page and the builders *)

Lemma rename_button_opens_form_witness :
  existing_corpus_section (Fixture.click (RenameButton "a")) Fixture.two_corpora
  = (Rerun, with_rename_corpus (Some "a") Fixture.two_corpora).
Proof.
  apply (rename_button_opens_form (Fixture.click (RenameButton "a"))
           Fixture.two_corpora "a" eq_refl).
Defined.

Lemma manage_corpus_idle_witness :
  manage_corpus Fixture.embed Fixture.split_text Fixture.no_widgets
    Fixture.one_corpus
  = (Ret tt, Fixture.one_corpus).
Proof.
  apply (manage_corpus_idle Fixture.embed Fixture.split_text
           Fixture.no_widgets Fixture.one_corpus eq_refl).
Defined.

Lemma manage_corpus_delete_witness :
  manage_corpus Fixture.embed Fixture.split_text
    (Fixture.click (DeleteButton "a")) Fixture.two_corpora
  = (Rerun, with_corpus_folder (delete "a") Fixture.two_corpora).
Proof.
  refine (proj1 (manage_corpus_delete Fixture.embed Fixture.split_text
                   (Fixture.click (DeleteButton "a")) Fixture.two_corpora "a"
                   eq_refl _)).
  by eexists.
Defined.

Lemma rename_after_delete_witness :
  rename_corpus "c" "d" (delete_corpus "c" Fixture.one_corpus).2
  = (Raise FileNotFoundError, (delete_corpus "c" Fixture.one_corpus).2).
Proof.
  apply (proj1 (rename_after_delete Fixture.one_corpus "c" "d"
                  eq_refl eq_refl eq_refl)).
Defined.

Lemma rename_to_free_name_witness :
  path_component "z" = true /\
  (rename_corpus "a" "z" Fixture.two_corpora).1 = Rerun /\
  corpus_folder (rename_corpus "a" "z" Fixture.two_corpora).2 !! "z"
  = Some (IndexDir [VectorIndex.Entry "x" [1%Q]]).
Proof.
  destruct (rename_to_free_name Fixture.embed Fixture.similarity
              Fixture.two_corpora "a" "z" "q"
              (IndexDir [VectorIndex.Entry "x" [1%Q]])
              eq_refl eq_refl eq_refl eq_refl eq_refl) as (H1 & H2 & _).
  split; [reflexivity|]. split; [exact H1|exact H2].
Defined.

Lemma rename_not_confirmed_witness :
  rename_corpus "a" "" Fixture.two_corpora = (Ret tt, Fixture.two_corpora).
Proof.
  apply (rename_not_confirmed Fixture.two_corpora "a" "" (or_introl eq_refl)).
Defined.

Lemma create_button_needs_both_witness :
  manage_corpus Fixture.embed Fixture.split_text
    (Widgets (Some CreateCorpusButton) "" ["a.txt"] "") Fixture.files_world
  = (Ret tt, Fixture.files_world).
Proof.
  apply (create_button_needs_both Fixture.embed Fixture.split_text
           (Widgets (Some CreateCorpusButton) "" ["a.txt"] "")
           Fixture.files_world Fixture.two_files eq_refl eq_refl
           (or_intror eq_refl)).
Defined.

Lemma create_corpus_from_files_unreadable_witness :
  create_corpus_from_files Fixture.embed Fixture.split_text "c"
    (["a.txt"] ++ "b.txt" :: []) Fixture.mixed_world
  = (Raise UnicodeDecodeError,
     with_corpus_folder (insert "c" EmptyDir) Fixture.mixed_world).
Proof.
  refine (create_corpus_from_files_unreadable Fixture.embed Fixture.split_text
            Fixture.mixed_world Fixture.mixed_files "c" ["a.txt"] ["A"]
            "b.txt" [] eq_refl eq_refl _ _).
  - repeat constructor.
  - intros content. discriminate.
Defined.

Lemma create_corpus_embedding_unavailable_witness :
  create_corpus_from_text Fixture.offline_embed Fixture.split_text "c" "hello"
    Fixture.empty_world
  = (Raise EmbeddingUnavailable,
     with_corpus_folder (insert "c" EmptyDir) Fixture.empty_world).
Proof.
  refine (proj1 (create_corpus_embedding_unavailable Fixture.offline_embed
                   Fixture.split_text Fixture.empty_world "c" "hello"
                   eq_refl _ _)).
  - discriminate.
  - left. reflexivity.
Defined.

Lemma create_corpus_elsewhere_witness :
  path_component "c" = true /\
  same_elsewhere "c" Fixture.empty_world
    (create_corpus_from_text Fixture.embed Fixture.split_text "c" "hello"
       Fixture.empty_world).2.
Proof.
  split; [reflexivity|].
  apply (proj1 (create_corpus_elsewhere Fixture.embed Fixture.split_text
                  Fixture.empty_world "c" "hello" [] eq_refl)).
Defined.

(** The names the hypothesis keeps out: nested and aliasing paths, the
    directory itself and its parent, the empty name. *)
Example path_component_examples :
  path_component "c" = true /\ path_component "my corpus.v2" = true /\
  path_component "a/b" = false /\ path_component "a/" = false /\
  path_component "." = false /\ path_component ".." = false /\
  path_component "" = false.
Proof. repeat split. Qed.

Lemma create_corpus_twice_duplicates_witness :
  let build := create_corpus_from_text Fixture.embed Fixture.split_text in
  persisted_entries
    (build "c" "hello" (build "c" "hello" Fixture.empty_world).2).2 "c"
  = [] ++ [VectorIndex.Entry "hello" [5%Q]] ++ [VectorIndex.Entry "hello" [5%Q]].
Proof.
  refine (proj2 (proj2 (proj2
    (create_corpus_twice_duplicates Fixture.embed Fixture.split_text
       Fixture.empty_world "c" "hello" [[5%Q]] _ _)))).
  - discriminate.
  - repeat constructor.
Defined.

Lemma progress_loop_succeeds_witness :
  progress_loop 0 0 ["x"] = Err ZeroDivision.
Proof.
  apply (proj2 (progress_loop_succeeds 0 ["x"])); [discriminate|reflexivity].
Defined.

Lemma get_corpus_context_accumulates_witness :
  let ws := Workspace (Some Fixture.two_files) None in
  let run := get_corpus_context Fixture.embed Fixture.similarity
               Fixture.split_text in
  chroma_db (run "b.txt" "q" (run "a.txt" "q" ws).2).2
  = Some (IndexDir ([] ++ [VectorIndex.Entry "A" [1%Q]]
                       ++ [VectorIndex.Entry "B" [1%Q]])).
Proof.
  refine (proj1 (proj2
    (get_corpus_context_accumulates Fixture.embed Fixture.similarity
       Fixture.split_text (Workspace (Some Fixture.two_files) None)
       Fixture.two_files "a.txt" "b.txt" "q" "q" "A" "B" [[1%Q]] [[1%Q]]
       [1%Q] [1%Q] eq_refl eq_refl eq_refl eq_refl eq_refl _ _ _
       eq_refl eq_refl))).
  - discriminate.
  - repeat constructor.
  - repeat constructor.
Defined.

(** * The chunker of the design document *)

Module ChunkerFacts.
Import Text Chunker.

Lemma string_take_drop (n : nat) (s : string) : take n s +:+ drop n s = s.
Proof.
  revert s. induction n as [|n IH]; intros [|c s]; cbn [take drop];
    try reflexivity.
  by rewrite append_cons, IH.
Qed.

Lemma string_drop_nil (n : nat) : drop n "" = "".
Proof. by destruct n. Qed.

Lemma string_drop_drop (n m : nat) (s : string) :
  drop m (drop n s) = drop (n + m) s.
Proof.
  revert s. induction n as [|n IH]; intros [|c s]; cbn [drop Nat.add];
    try reflexivity.
  - apply string_drop_nil.
  - apply IH.
Qed.

Lemma string_length_drop (n : nat) (s : string) :
  String.length (drop n s) = (String.length s - n)%nat.
Proof.
  revert s. induction n as [|n IH]; intros [|c s];
    cbn [drop String.length]; try lia.
  rewrite IH. lia.
Qed.

Lemma string_length_take (n : nat) (s : string) :
  String.length (take n s) = (n `min` String.length s)%nat.
Proof.
  revert s. induction n as [|n IH]; intros [|c s];
    cbn [take String.length]; try lia.
  rewrite IH. lia.
Qed.

(** Dropping the repeated part of a window and appending what follows the
    window is dropping the repeated part of the whole. *)
Lemma drop_take_window (overlap chunk_size : nat) (s : string) :
  (overlap <= chunk_size)%nat ->
  drop overlap (take chunk_size s) +:+ drop chunk_size s = drop overlap s.
Proof.
  revert chunk_size s. induction overlap as [|o IH]; intros size s Hle.
  - cbn [drop]. destruct (take size s) eqn:E; rewrite <- E; apply string_take_drop.
  - destruct size as [|size]; [lia|]. destruct s as [|c s]; [reflexivity|].
    cbn [take drop]. apply IH. lia.
Qed.

Lemma string_concat_cons (x : string) (l : list string) :
  String.concat "" (x :: l) = x +:+ String.concat "" l.
Proof.
  destruct l as [|y l]; cbn [String.concat]; [by rewrite append_nil_r|].
  reflexivity.
Qed.

(** The later segments, each without its first [overlap] characters, spell
    the text from [overlap] on. *)
Lemma chunk_from_tail (fuel chunk_size step overlap offset : nat)
    (rest : string) :
  (overlap + step = chunk_size)%nat ->
  (0 < step)%nat ->
  (String.length rest <= fuel)%nat ->
  String.concat ""
    (map (fun t => drop overlap (seg_text t))
       (chunk_from fuel chunk_size step offset rest))
  = drop overlap rest.
Proof.
  intros Hsize Hstep. revert offset rest.
  induction fuel as [|fuel IH]; intros offset rest Hfuel.
  - destruct rest; [|cbn in Hfuel; lia]. by rewrite string_drop_nil.
  - destruct rest as [|c rest]; [by rewrite string_drop_nil|].
    cbn [chunk_from map]. rewrite string_concat_cons. cbn [seg_text].
    rewrite IH.
    + rewrite string_drop_drop.
      replace (step + overlap)%nat with chunk_size by lia.
      apply drop_take_window. lia.
    + rewrite string_length_drop. cbn [String.length] in *. lia.
Qed.

Lemma reassemble_chunk (text : string) (chunk_size overlap : nat) :
  (overlap < chunk_size)%nat ->
  reassemble overlap (chunk text chunk_size overlap) = text.
Proof.
  intros Hlt. unfold chunk.
  destruct (Nat.leb_spec chunk_size overlap) as [Hle|_]; [lia|].
  destruct text as [|c text]; [reflexivity|].
  cbn [String.length chunk_from reassemble seg_text].
  rewrite (chunk_from_tail _ chunk_size (chunk_size - overlap) overlap).
  - rewrite string_drop_drop.
    replace (chunk_size - overlap + overlap)%nat with chunk_size by lia.
    apply string_take_drop.
  - lia.
  - lia.
  - rewrite string_length_drop. cbn [String.length]. lia.
Qed.

(** C5. For a non-empty text and [0 < overlap < chunk_size], the segments
    of [chunk], glued together after the [overlap] characters each later
    segment repeats are removed, are the text again. *)
Theorem chunk_reconstructs_text (text : string) (chunk_size overlap : nat) :
  text <> "" ->
  (0 < overlap)%nat ->
  (overlap < chunk_size)%nat ->
  reassemble overlap (chunk text chunk_size overlap) = text.
Proof. intros _ _ Hlt. by apply reassemble_chunk. Qed.

Lemma chunk_reconstructs_text_witness :
  "abcdefg" <> "" /\ (0 < 2)%nat /\ (2 < 4)%nat /\
  reassemble 2 (chunk "abcdefg" 4 2) = "abcdefg".
Proof.
  split; [discriminate|]. split; [lia|]. split; [lia|].
  apply chunk_reconstructs_text; [discriminate|lia|lia].
Defined.

(** The windows of that text: four characters each, two of them shared. *)
Example chunk_abcdefg :
  chunk "abcdefg" 4 2
  = [Segment "abcd" 0; Segment "cdef" 2; Segment "efg" 4; Segment "g" 6].
Proof. reflexivity. Qed.

(** C6. Whatever the size and the overlap, the empty text yields no
    segment. *)
Theorem chunk_empty_text (chunk_size overlap : nat) :
  chunk "" chunk_size overlap = [].
Proof. unfold chunk. by destruct (chunk_size <=? overlap)%nat. Qed.

(** Every segment is the window of [chunk_size] characters at its offset. *)
Lemma chunk_from_windows (fuel chunk_size step offset : nat)
    (text : string) :
  Forall (fun s => seg_text s = take chunk_size (drop (source_offset s) text))
    (chunk_from fuel chunk_size step offset (drop offset text)).
Proof.
  revert offset. induction fuel as [|fuel IH]; intros offset; [constructor|].
  cbn [chunk_from]. destruct (drop offset text) as [|c rest] eqn:E;
    [constructor|].
  rewrite <- E. constructor; [reflexivity|].
  rewrite string_drop_drop. apply IH.
Qed.

End ChunkerFacts.

(** * The search of the design document *)

Module VectorIndexFacts.
Import VectorIndex.

Section search.
Variable similarity : Embedding -> Embedding -> Q.
Variable q : Embedding.

#[local] Instance nearer_trans : Transitive (nearer similarity q).
Proof. intros e1 e2 e3 H12 H23. unfold nearer in *. by eapply Qle_trans. Qed.

#[local] Instance nearer_total : Total (nearer similarity q).
Proof.
  intros e1 e2. unfold nearer.
  destruct (Qlt_le_dec (score similarity q e1) (score similarity q e2))
    as [Hlt|Hle]; [right; by apply Qlt_le_weak|by left].
Qed.

Lemma ranked_sorted (entries : list entry) :
  StronglySorted (nearer similarity q) (ranked similarity q entries).
Proof. apply StronglySorted_merge_sort; apply _. Qed.

Lemma ranked_permutation (entries : list entry) :
  ranked similarity q entries ≡ₚ entries.
Proof. apply merge_sort_Permutation. Qed.

(** C8. For [k > 0] the search succeeds.  It returns [min k n] of the [n]
    stored entries, each with its similarity to the query, in descending
    order of similarity; no entry left out is nearer than one returned;
    and an index with fewer than [k] entries is returned whole. *)
Theorem search_top_k (entries : list entry) (k : Z) :
  0 < k ->
  exists hits,
    search similarity entries q k = Ok hits /\
    length hits = (Z.to_nat k `min` length entries)%nat /\
    Forall (fun h => h.2 = score similarity q h.1) hits /\
    StronglySorted (fun h1 h2 => (h2.2 <= h1.2)%Q) hits /\
    (exists others,
       hits.*1 ++ others ≡ₚ entries /\
       forall h o, h ∈ hits -> o ∈ others ->
         (score similarity q o <= h.2)%Q) /\
    (Z.of_nat (length entries) < k -> hits.*1 ≡ₚ entries).
Proof.
  intros Hk.
  set (top := take (Z.to_nat k) (ranked similarity q entries)).
  set (others := drop (Z.to_nat k) (ranked similarity q entries)).
  assert (Hsplit : top ++ others = ranked similarity q entries)
    by apply take_drop.
  assert (Hsorted := ranked_sorted entries). rewrite <- Hsplit in Hsorted.
  exists ((fun e => (e, score similarity q e)) <$> top).
  assert (Hfst : ((fun e => (e, score similarity q e)) <$> top).*1 = top).
  { rewrite <- list_fmap_compose. apply list_fmap_id. }
  split; [|split; [|split; [|split; [|split]]]].
  - unfold search. destruct (Z.leb_spec k 0); [lia|]. reflexivity.
  - rewrite length_fmap. unfold top. rewrite length_take.
    by rewrite (Permutation_length (ranked_permutation entries)).
  - apply Forall_fmap, Forall_forall. by intros e _.
  - eapply StronglySorted_fmap; [|eapply StronglySorted_app_1_l, Hsorted].
    intros e1 e2 H12. exact H12.
  - exists others. rewrite Hfst. split.
    + rewrite Hsplit. apply ranked_permutation.
    + intros h o Hh Ho. apply list_elem_of_fmap in Hh as [e [-> He]].
      exact (StronglySorted_app_1_elem_of _ _ _ _ _ Hsorted He Ho).
  - intros Hfew. rewrite Hfst. unfold top.
    rewrite take_ge; [apply ranked_permutation|].
    rewrite (Permutation_length (ranked_permutation entries)). lia.
Qed.

End search.

Lemma search_top_k_witness :
  0 < 3 /\
  exists hits,
    search Fixture.similarity
      [Entry "hello" [5%Q]; Entry "xy" [2%Q]] [2%Q] 3 = Ok hits /\
    length hits = 2%nat.
Proof.
  split; [lia|].
  destruct (search_top_k Fixture.similarity [2%Q]
              [Entry "hello" [5%Q]; Entry "xy" [2%Q]] 3) as (hits & Hs & Hl & _);
    [lia|].
  exists hits. split; [exact Hs|exact Hl].
Defined.

(** The nearest entry comes first. *)
Example search_two_entries :
  search Fixture.similarity [Entry "hello" [5%Q]; Entry "xy" [2%Q]] [2%Q] 3
  = Ok [(Entry "xy" [2%Q], 0%Q); (Entry "hello" [5%Q], (-3)%Q)].
Proof. vm_compute. reflexivity. Qed.

End VectorIndexFacts.

(** * The rate computation *)

Module PerformanceFacts.
Import Performance.

Lemma nanos_nonzero (d : Z) :
  d <> 0 -> Qeq_bool (inject_Z d / nanos) 0 = false.
Proof.
  intros Hd. apply not_true_is_false. intros H.
  apply Qeq_bool_iff in H.
  assert (Hn : ~ (nanos == 0)%Q) by (unfold nanos; intros Hq; discriminate Hq).
  apply (Qmult_inj_r _ _ nanos Hn) in H.
  rewrite Qmult_0_l in H.
  unfold Qdiv in H. rewrite <- Qmult_assoc in H.
  rewrite (Qmult_comm (/ nanos)) in H.
  rewrite Qmult_inv_r in H by exact Hn.
  rewrite Qmult_1_r in H.
  unfold Qeq in H. simpl in H. lia.
Qed.

Lemma truediv_nanos (d : Q) : truediv d nanos = Ok (d / nanos)%Q.
Proof. reflexivity. Qed.

Lemma tokens_per_second_total (c d : pyval) :
  tokens_per_second c d = Ok (rate_spec c d).
Proof.
  destruct c as [|c], d as [|d]; try reflexivity.
  - unfold tokens_per_second, truthy. rewrite andb_false_r. reflexivity.
  - unfold tokens_per_second, rate_spec, truthy, number.
    destruct (Z.eqb_spec c 0) as [->|Hc]; [reflexivity|].
    destruct (Z.eqb_spec d 0) as [->|Hd]; [reflexivity|].
    cbn [negb andb orb]. rewrite truediv_nanos.
    unfold truediv at 1. rewrite (nanos_nonzero d Hd). reflexivity.
Qed.

Lemma tokens_per_second_list_total (rs : list test_result) :
  tokens_per_second_list rs
  = Ok (map (fun r => rate_spec (eval_count r) (eval_duration r)) rs).
Proof.
  induction rs as [|r rs IH]; simpl; [reflexivity|].
  rewrite tokens_per_second_total, IH. reflexivity.
Qed.

(** C10. In both call sites the rate is [eval_count / (eval_duration / 10^9)]
    when both counters are present and non-zero and [0] otherwise, and no
    division raises: neither [ZeroDivisionError] nor [TypeError] can come
    out of the guarded expression, for any counters and any dictionary of
    results. *)
Theorem tokens_per_second_guarded :
  (forall c d : pyval, tokens_per_second c d = Ok (rate_spec c d)) /\
  (forall results : list (string * test_result),
     run_comparison results
     = Ok (map fst results,
           map (fun mr => elapsed_time (snd mr)) results,
           map (fun mr => rate_spec (eval_count (snd mr))
                                    (eval_duration (snd mr))) results)).
Proof.
  split; [exact tokens_per_second_total|].
  intros results. unfold run_comparison.
  rewrite tokens_per_second_list_total, map_map. reflexivity.
Qed.

End PerformanceFacts.

(** * Python's [str] methods *)

Module PyStrFacts.
Import Text PyStr CodeBlocks.

Lemma length_app (s t : string) :
  String.length (s +:+ t) = (String.length s + String.length t)%nat.
Proof.
  induction s as [|c s IH]; [reflexivity|].
  rewrite append_cons. cbn [String.length]. by rewrite IH.
Qed.

Lemma prefix_cons (a b : Ascii.ascii) (p s : string) :
  String.prefix (String a p) (String b s)
  = if decide (a = b) then String.prefix p s else false.
Proof.
  cbn [String.prefix]. destruct (Ascii.ascii_dec a b) as [->|Hne].
  - by rewrite decide_True.
  - by rewrite decide_False.
Qed.

Lemma prefix_split (p s : string) :
  String.prefix p s = true -> s = p +:+ drop (String.length p) s.
Proof.
  revert s. induction p as [|a p IH]; intros s Hp; [reflexivity|].
  destruct s as [|b s]; [discriminate|].
  rewrite prefix_cons in Hp. destruct (decide (a = b)) as [->|]; [|done].
  rewrite append_cons. cbn [String.length drop]. f_equal. by apply IH.
Qed.

Lemma prefix_app (p t : string) : String.prefix p (p +:+ t) = true.
Proof.
  induction p as [|a p IH]; [by destruct t|].
  rewrite append_cons, prefix_cons. by rewrite decide_True.
Qed.

Lemma drop_app_length (p t : string) : drop (String.length p) (p +:+ t) = t.
Proof. induction p as [|a p IH]; [reflexivity|]. by rewrite append_cons. Qed.

Lemma partition_unfold (sep s : string) :
  partition sep s
  = if String.prefix sep s then Some ("", drop (String.length sep) s)
    else
      match s with
      | "" => None
      | String c s' =>
          match partition sep s' with
          | Some (before, after) => Some (String c before, after)
          | None => None
          end
      end.
Proof. by destruct s. Qed.

(** What [partition] returns is a split of the string at the separator. *)
Lemma partition_Some (sep s before after : string) :
  partition sep s = Some (before, after) -> s = before +:+ sep +:+ after.
Proof.
  revert before. induction s as [|c s IH]; intros before;
    rewrite partition_unfold.
  - destruct (String.prefix sep "") eqn:Hp; [|discriminate].
    intros [= <- <-]. by apply prefix_split in Hp.
  - destruct (String.prefix sep (String c s)) eqn:Hp.
    + intros [= <- <-]. by apply prefix_split in Hp.
    + destruct (partition sep s) as [[b a]|]; [|discriminate].
      intros [= <- <-]. rewrite append_cons. f_equal. by apply IH.
Qed.



Lemma partition_length (sep s before after : string) :
  partition sep s = Some (before, after) ->
  String.length s
  = (String.length before + String.length sep + String.length after)%nat.
Proof.
  intros Hp. apply partition_Some in Hp. subst s.
  rewrite !length_app. lia.
Qed.

(** When no character before the fence is a backtick, the split is at that
    fence. *)
Lemma partition_fence_free (before after : string) :
  free_of is_backtick before = true ->
  partition fence (before +:+ fence +:+ after) = Some (before, after).
Proof.
  induction before as [|c before IH]; intros Hfree.
  - rewrite append_nil_l, partition_unfold, prefix_app.
    by rewrite drop_app_length.
  - cbn [free_of] in Hfree. apply andb_prop in Hfree as [Hc Hfree].
    rewrite append_cons, partition_unfold.
    assert (Hp : String.prefix fence (String c (before +:+ fence +:+ after))
                 = false).
    { unfold fence. rewrite prefix_cons.
      destruct (decide (_ = c)) as [<-|]; [|done]. discriminate. }
    rewrite Hp, IH by done. reflexivity.
Qed.

Lemma lstrip_first (chars : Ascii.ascii -> bool) (s : string) (c : Ascii.ascii) :
  first_char (lstrip chars s) = Some c -> chars c = false.
Proof.
  induction s as [|a s IH]; [discriminate|].
  cbn [lstrip]. destruct (chars a) eqn:Ha; [exact IH|].
  intros [= <-]. exact Ha.
Qed.

Lemma rstrip_first (chars : Ascii.ascii -> bool) (s : string) (c : Ascii.ascii) :
  first_char (rstrip chars s) = Some c -> first_char s = Some c.
Proof.
  destruct s as [|a s]; [discriminate|]. cbn [rstrip].
  destruct (rstrip chars s); [destruct (chars a); [discriminate|]|]; done.
Qed.

Lemma rstrip_last (chars : Ascii.ascii -> bool) (s : string) (c : Ascii.ascii) :
  last_char (rstrip chars s) = Some c -> chars c = false.
Proof.
  induction s as [|a s IH]; [discriminate|]. cbn [rstrip].
  destruct (rstrip chars s) as [|b kept].
  - destruct (chars a) eqn:Ha; [discriminate|]. intros [= <-]. exact Ha.
  - exact IH.
Qed.

(** A stripped string neither starts nor ends with a stripped character. *)
Lemma strip_ends (chars : Ascii.ascii -> bool) (s : string) (c : Ascii.ascii) :
  first_char (strip chars s) = Some c \/ last_char (strip chars s) = Some c ->
  chars c = false.
Proof.
  unfold strip. intros [Hf|Hl].
  - eapply lstrip_first, rstrip_first, Hf.
  - eapply rstrip_last, Hl.
Qed.

Lemma lstrip_free (chars : Ascii.ascii -> bool) (s : string) :
  free_of chars s = true -> lstrip chars s = s.
Proof.
  destruct s as [|a s]; [reflexivity|]. cbn [free_of lstrip].
  intros Hfree. apply andb_prop in Hfree as [Ha _].
  by destruct (chars a).
Qed.

Lemma rstrip_free (chars : Ascii.ascii -> bool) (s : string) :
  free_of chars s = true -> rstrip chars s = s.
Proof.
  induction s as [|a s IH]; [reflexivity|]. cbn [free_of rstrip].
  intros Hfree. apply andb_prop in Hfree as [Ha Hs].
  rewrite IH by done. destruct s; [|reflexivity]. by destruct (chars a).
Qed.

Lemma strip_free (chars : Ascii.ascii -> bool) (s : string) :
  free_of chars s = true -> strip chars s = s.
Proof.
  intros Hfree. unfold strip. rewrite lstrip_free by done.
  by apply rstrip_free.
Qed.

(** Stripping a suffix made of stripped characters removes it. *)
Lemma rstrip_app_all (chars : Ascii.ascii -> bool) (s t : string) :
  free_of (fun c => negb (chars c)) t = true ->
  rstrip chars (s +:+ t) = rstrip chars s.
Proof.
  intros Ht.
  assert (Hall : rstrip chars t = "").
  { induction t as [|a t IH]; [reflexivity|]. cbn [free_of rstrip] in *.
    apply andb_prop in Ht as [Ha Ht]. rewrite IH by done.
    rewrite negb_involutive in Ha. by rewrite Ha. }
  induction s as [|a s IH]; [by rewrite append_nil_l|].
  rewrite append_cons. cbn [rstrip]. by rewrite IH.
Qed.

End PyStrFacts.

(** * [extract_code_blocks] *)

Module CodeBlocksFacts.
Import Text PyStr CodeBlocks PyStrFacts.

Lemma partition_fence_nil : partition fence "" = None.
Proof. reflexivity. Qed.

(** The length of the text is fuel enough. *)
Lemma findall_fenced_fuel (fuel1 fuel2 : nat) (text : string) :
  (String.length text <= fuel1)%nat ->
  (String.length text <= fuel2)%nat ->
  findall_fenced fuel1 text = findall_fenced fuel2 text.
Proof.
  revert fuel2 text. induction fuel1 as [|fuel1 IH]; intros fuel2 text H1 H2.
  - destruct text; [|cbn in H1; lia]. by destruct fuel2.
  - destruct fuel2 as [|fuel2].
    { destruct text; [reflexivity|cbn in H2; lia]. }
    cbn [findall_fenced].
    destruct (partition fence text) as [[pre opened]|] eqn:Ho; [|reflexivity].
    destruct (partition fence opened) as [[body rest]|] eqn:Hc; [|reflexivity].
    apply partition_length in Ho, Hc. cbn [fence String.length] in Ho, Hc.
    f_equal. apply IH; lia.
Qed.

Lemma strip_fenced (body : string) :
  free_of is_backtick body = true ->
  strip is_backtick (fence +:+ body +:+ fence) = body.
Proof.
  intros Hfree. unfold strip.
  assert (Hl : lstrip is_backtick (fence +:+ body +:+ fence)
               = lstrip is_backtick (body +:+ fence)) by reflexivity.
  rewrite Hl. clear Hl.
  destruct body as [|c body].
  - reflexivity.
  - assert (Hc : is_backtick c = false).
    { cbn [free_of] in Hfree. apply andb_prop in Hfree as [Hc _].
      by destruct (is_backtick c). }
    rewrite append_cons. cbn [lstrip]. rewrite Hc. rewrite <- append_cons.
    rewrite rstrip_app_all by reflexivity. by apply rstrip_free.
Qed.


(** A block whose body has no backtick, behind a text that has none: the
    function returns the body, white space stripped at both ends and
    whatever follows the opening fence on its line included, followed by
    the blocks of the rest of the text. *)
Theorem extract_first_block (before body rest : string) :
  free_of is_backtick before = true ->
  free_of is_backtick body = true ->
  extract_code_blocks (before +:+ "```" +:+ body +:+ "```" +:+ rest)
  = strip isspace body :: extract_code_blocks rest.
Proof.
  intros Hbefore Hbody. unfold extract_code_blocks.
  set (text := before +:+ "```" +:+ body +:+ "```" +:+ rest).
  assert (Hlen : (String.length rest + 6 <= String.length text)%nat).
  { unfold text. rewrite !length_app. cbn [String.length]. lia. }
  destruct (String.length text) as [|fuel] eqn:Hfuel; [lia|].
  cbn [findall_fenced]. unfold text. fold fence.
  rewrite (partition_fence_free before (body +:+ fence +:+ rest)) by done.
  rewrite (partition_fence_free body rest) by done.
  cbn [map]. rewrite strip_fenced by done. f_equal.
  f_equal. apply findall_fenced_fuel; lia.
Qed.

(** No block that is returned starts or ends with white space. *)
Theorem extract_blocks_stripped (text : string) :
  Forall (fun block => forall c,
            first_char block = Some c \/ last_char block = Some c ->
            isspace c = false)
    (extract_code_blocks text).
Proof.
  unfold extract_code_blocks. apply Forall_forall. intros block Hin.
  apply list_elem_of_fmap in Hin as (raw & -> & _).
  intros c. apply strip_ends.
Qed.


Lemma extract_first_block_witness :
  extract_code_blocks ("run " +:+ "```" +:+ "python x=1 " +:+ "```" +:+ " it")
  = strip isspace "python x=1 " :: extract_code_blocks " it".
Proof. apply extract_first_block; reflexivity. Defined.

(** Runs of backticks, the way the pattern reads them. *)
Example extract_backtick_runs :
  extract_code_blocks "```a``````b```" = ["a"; "b"] /\
  extract_code_blocks "`````````" = [""] /\
  extract_code_blocks "``` `x```" = ["`x"] /\
  extract_code_blocks "````" = [].
Proof. repeat split. Qed.

End CodeBlocksFacts.

(** * The name handed to [pull_model] *)

Module ModelNamesFacts.
Import Text PyStr CodeBlocks ModelNames PyStrFacts.

Lemma prefix_free_of (chars : Ascii.ascii -> bool) (old s : string) :
  String.prefix old s = true ->
  free_of chars s = true ->
  free_of chars old = true.
Proof.
  revert s. induction old as [|a old IH]; intros s Hp Hfree; [reflexivity|].
  destruct s as [|b s]; [discriminate|].
  rewrite prefix_cons in Hp. destruct (decide (a = b)) as [->|]; [|done].
  cbn [free_of] in *. apply andb_prop in Hfree as [Hb Hs].
  rewrite Hb. cbn [andb]. by apply (IH s).
Qed.

(** Nothing is replaced in a string that lacks a kind of character the
    pattern needs. *)
Lemma replace_from_absent (chars : Ascii.ascii -> bool) (fuel : nat)
    (old new s : string) :
  free_of chars old = false ->
  free_of chars s = true ->
  replace_from fuel old new s = s.
Proof.
  intros Hold. revert s. induction fuel as [|fuel IH]; intros s Hs;
    [reflexivity|].
  cbn [replace_from].
  destruct (String.prefix old s) eqn:Hp.
  - rewrite (prefix_free_of chars old s Hp Hs) in Hold. discriminate.
  - destruct s as [|c s]; [reflexivity|].
    cbn [free_of] in Hs. apply andb_prop in Hs as [_ Hs]. by rewrite IH.
Qed.

Lemma replace_from_miss (fuel : nat) (old new : string) (c : Ascii.ascii)
    (s : string) :
  String.prefix old (String c s) = false ->
  replace_from (S fuel) old new (String c s)
  = String c (replace_from fuel old new s).
Proof. intros Hp. cbn [replace_from]. by rewrite Hp. Qed.

Lemma replace_from_hit (fuel : nat) (old new s : string) :
  String.prefix old s = true ->
  replace_from (S fuel) old new s
  = new +:+ replace_from fuel old new (drop (String.length old) s).
Proof. intros Hp. cbn [replace_from]. by rewrite Hp. Qed.

Lemma nonempty_free (s : string) : s <> "" -> nonempty s = true.
Proof. by destruct s. Qed.

Lemma clean_plain (name : string) :
  free_of isspace name = true ->
  strip isspace
    (replace "ollama pull " "" (replace "ollama run " "" name)) = name.
Proof.
  intros Hfree. unfold replace.
  rewrite (replace_from_absent isspace _ "ollama run " "" name)
    by (done || reflexivity).
  rewrite (replace_from_absent isspace _ "ollama pull " "" name)
    by (done || reflexivity).
  by apply strip_free.
Qed.

(** A model name without white space comes through the cleaning as it is,
    and so does the name pasted behind ["ollama run "] or
    ["ollama pull "]: the command is cut off and the name is pulled. *)
Theorem pull_models_pasted_command (name : string) :
  name <> "" ->
  free_of isspace name = true ->
  pull_models name = PullModel name /\
  pull_models ("ollama run " +:+ name) = PullModel name /\
  pull_models ("ollama pull " +:+ name) = PullModel name.
Proof.
  intros Hne Hfree. split; [|split].
  - unfold pull_models. rewrite nonempty_free by done.
    by rewrite clean_plain.
  - unfold pull_models.
    assert (Hrun : replace "ollama run " "" ("ollama run " +:+ name) = name).
    { unfold replace. rewrite replace_from_hit by apply prefix_app.
      rewrite drop_app_length, append_nil_l.
      by apply (replace_from_absent isspace). }
    rewrite Hrun. rewrite !append_cons. cbn [nonempty].
    unfold replace.
    rewrite (replace_from_absent isspace _ "ollama pull " "" name)
      by (done || reflexivity).
    by rewrite strip_free.
  - unfold pull_models. rewrite !append_cons, append_nil_l. cbn [nonempty].
    assert (Hrun : forall s, replace "ollama run " "" s
                             = replace_from (S (String.length s))
                                 "ollama run " "" s) by reflexivity.
    rewrite Hrun. cbn [String.length].
    do 12 (rewrite replace_from_miss by reflexivity).
    rewrite (replace_from_absent isspace _ "ollama run " "" name)
      by (done || reflexivity).
    unfold replace.
    rewrite replace_from_hit by exact (prefix_app "ollama pull " name).
    cbn [String.length drop]. rewrite append_nil_l.
    rewrite (replace_from_absent isspace _ "ollama pull " "" name)
      by (done || reflexivity).
    by rewrite strip_free.
Qed.

Lemma lstrip_all (chars : Ascii.ascii -> bool) (s : string) :
  free_of (fun c => negb (chars c)) s = true -> lstrip chars s = "".
Proof.
  induction s as [|a s IH]; [reflexivity|]. cbn [free_of lstrip].
  intros Hall. apply andb_prop in Hall as [Ha Hs].
  rewrite negb_involutive in Ha. rewrite Ha. by apply IH.
Qed.

(** The test for a name comes before the cleaning, so white space passes
    it: a name made of white space only is not refused, and [pull_model]
    is called with the empty name. *)
Theorem pull_models_blank_name (name : string) :
  name <> "" ->
  free_of (fun c => negb (isspace c)) name = true ->
  pull_models name = PullModel "".
Proof.
  intros Hne Hblank. unfold pull_models. rewrite nonempty_free by done.
  unfold replace.
  rewrite (replace_from_absent (fun c => negb (isspace c)) _
             "ollama run " "" name) by (done || reflexivity).
  rewrite (replace_from_absent (fun c => negb (isspace c)) _
             "ollama pull " "" name) by (done || reflexivity).
  unfold strip. by rewrite lstrip_all.
Qed.

Lemma pull_models_pasted_command_witness :
  pull_models ("ollama run " +:+ "llava-phi3") = PullModel "llava-phi3".
Proof.
  refine (proj1 (proj2 (pull_models_pasted_command "llava-phi3" _ eq_refl))).
  discriminate.
Defined.

Lemma pull_models_blank_name_witness : pull_models "  " = PullModel "".
Proof. apply pull_models_blank_name; [discriminate|reflexivity]. Defined.

(** The phrases are removed wherever they stand, and only once over: what
    the removal brings together is left in the name. *)
Example pull_models_inner_phrase :
  pull_models "ollama ollama run run x" = PullModel "ollama run x".
Proof. reflexivity. Qed.

End ModelNamesFacts.

(** * The rates in the headings of [model_comparison_test] *)

Module ComparisonFacts.
Import Performance Comparison PerformanceFacts.

Lemma list_index_middle (x : string) (before after : list string) :
  x ∉ before ->
  list_index x (before ++ x :: after) = Some (length before).
Proof.
  induction before as [|y before IH]; intros Hnin.
  - cbn. by rewrite decide_True.
  - apply not_elem_of_cons in Hnin as [Hne Hnin].
    cbn. rewrite decide_False by done. by rewrite IH.
Qed.

Lemma heading_rates_run (shown items : list (string * test_result)) :
  NoDup ((shown ++ items).*1) ->
  heading_rates ((shown ++ items).*1) (rate_of <$> (shown ++ items)) items
  = Ok ((fun mr => (mr.1, rate_of mr)) <$> items).
Proof.
  revert shown. induction items as [|[model r] items IH]; intros shown Hnd;
    [reflexivity|].
  cbn [heading_rates].
  assert (Hnin : model ∉ shown.*1).
  { rewrite fmap_app in Hnd. apply NoDup_app in Hnd as (_ & Hdisj & _).
    intros Hin. apply (Hdisj model Hin). cbn. apply list_elem_of_here. }
  rewrite fmap_app at 1. cbn [fmap list_fmap fst].
  rewrite (list_index_middle model _ _ Hnin).
  rewrite length_fmap.
  rewrite (fmap_app rate_of) at 1. cbn [fmap list_fmap].
  rewrite list_lookup_middle by (by rewrite length_fmap).
  replace (shown ++ (model, r) :: items)
    with ((shown ++ [(model, r)]) ++ items) in * by (by rewrite <- app_assoc).
  rewrite IH by done. reflexivity.
Qed.

(** Every heading shows the rate of its own model.  The models are the
    keys of a dictionary, hence distinct, so [models.index(model)] is the
    position of the model in the list of rates: no exception is raised and
    the rate shown for a model is the one computed from its own counters. *)
Theorem heading_shows_own_rate (results : list (string * test_result)) :
  NoDup (results.*1) ->
  model_comparison_test results
  = Ok ((fun mr => (mr.1, rate_spec (eval_count mr.2) (eval_duration mr.2)))
          <$> results).
Proof.
  intros Hnd. unfold model_comparison_test, run_comparison.
  rewrite tokens_per_second_list_total, map_map.
  apply (heading_rates_run [] results Hnd).
Qed.

Lemma heading_shows_own_rate_witness :
  model_comparison_test
    [("a", TestResult "x" 1 (PyInt 10) (PyInt 2000000000));
     ("b", TestResult "y" 2 PyNone (PyInt 5))]
  = Ok ((fun mr => (mr.1, rate_spec (eval_count mr.2) (eval_duration mr.2)))
          <$> [("a", TestResult "x" 1 (PyInt 10) (PyInt 2000000000));
               ("b", TestResult "y" 2 PyNone (PyInt 5))]).
Proof.
  apply heading_shows_own_rate. cbn. apply NoDup_cons. split.
  - intros Hin. apply list_elem_of_singleton in Hin. discriminate.
  - apply NoDup_singleton.
Defined.

End ComparisonFacts.

(** * [files_tab] *)

Module FilesTabFacts.
Import FilesTab.
Local Open Scope script_scope.

Lemma bind_run {A B} (m : M A) (k : A -> M B) (w w' : world) (a : A) :
  m w = (Ret a, w') -> bind m k w = k a w'.
Proof. intros Hm. unfold bind. by rewrite Hm. Qed.

Lemma read_or_report_present (w : world) (m : gmap string file)
    (name : string) :
  files_folder w = Some m ->
  is_Some (m !! name) ->
  exists r, read_or_report name w = (Ret r, w).
Proof.
  intros Hfs [c Hc]. unfold read_or_report, read_text, bind, gets.
  rewrite Hfs, Hc. destruct c; eauto.
Qed.

Lemma read_bytes_present (w : world) (m : gmap string file) (name : string) :
  files_folder w = Some m ->
  is_Some (m !! name) ->
  read_bytes name w = (Ret tt, w).
Proof.
  intros Hfs [c Hc]. unfold read_bytes, bind, gets. by rewrite Hfs, Hc.
Qed.

Lemma os_remove_present (w : world) (m : gmap string file) (name : string) :
  files_folder w = Some m ->
  is_Some (m !! name) ->
  os_remove name w = (Ret tt, with_files (delete name m) w).
Proof.
  intros Hfs [c Hc]. unfold os_remove, bind, gets. by rewrite Hfs, Hc.
Qed.

Lemma write_file_run (w : world) (m : gmap string file) (name : string)
    (content : file) :
  files_folder w = Some m ->
  write_file name content w = (Ret tt, with_files (<[name := content]> m) w).
Proof. intros Hfs. unfold write_file, bind, gets. by rewrite Hfs. Qed.

(** The first three blocks of a row read and show; they write nothing.  In
    particular the save button inside the editor is never true in a run
    that shows the editor, which needs the edit button to be the one
    clicked. *)
Lemma file_actions_run (ui : files_widgets) (fname : string) (w : world)
    (m : gmap string file) :
  files_folder w = Some m ->
  is_Some (m !! fname) ->
  file_actions ui fname w
  = if bool_decide (clicked_button ui = Some (DeleteFileButton fname))
    then (Rerun, with_files (delete fname m) w)
    else (Ret tt, w).
Proof.
  intros Hfs Hfile. unfold file_actions.
  set (is_pdf := endswith fname ".pdf").
  (* view *)
  rewrite (bind_run _ _ w w tt); cycle 1.
  { destruct (session_state_get ui (negb is_pdf) (ViewButton fname));
      [|reflexivity].
    destruct (read_or_report_present w m fname Hfs Hfile) as [r Hr].
    by rewrite (bind_run _ _ w w r). }
  (* edit *)
  rewrite (bind_run _ _ w w tt); cycle 1.
  { unfold session_state_get.
    destruct (negb is_pdf); [|reflexivity]. cbn [andb].
    destruct (decide (clicked_button ui = Some (EditButton fname)))
      as [Hedit|Hother].
    - rewrite bool_decide_eq_true_2 by done.
      destruct (read_or_report_present w m fname Hfs Hfile) as [r Hr].
      rewrite (bind_run _ _ w w r) by done.
      destruct r; [|reflexivity].
      rewrite bool_decide_eq_false_2; [reflexivity|].
      rewrite Hedit. discriminate.
    - by rewrite bool_decide_eq_false_2. }
  (* download *)
  rewrite (bind_run _ _ w w tt); cycle 1.
  { unfold session_state_get. destruct is_pdf; [|reflexivity].
    cbn [andb].
    destruct (bool_decide (clicked_button ui = Some (DownloadButton fname)));
      [|reflexivity].
    by apply (read_bytes_present w m). }
  (* delete *)
  unfold session_state_get. cbn [andb].
  destruct (bool_decide (clicked_button ui = Some (DeleteFileButton fname)));
    [|reflexivity].
  by rewrite (bind_run _ _ w _ tt (os_remove_present w m fname Hfs Hfile)).
Qed.

Lemma file_rows_run (ui : files_widgets) (files : list string) (w : world)
    (m : gmap string file) :
  files_folder w = Some m ->
  (forall f, f ∈ files -> is_Some (m !! f)) ->
  file_rows ui files w
  = match clicked_button ui with
    | Some (DeleteFileButton f) =>
        if decide (f ∈ files)
        then (Rerun, with_files (delete f m) w)
        else (Ret tt, w)
    | _ => (Ret tt, w)
    end.
Proof.
  intros Hfs. induction files as [|fname rest IH]; intros Hall.
  - cbn [file_rows]. by destruct (clicked_button ui) as [[]|].
  - cbn [file_rows]. unfold bind at 1.
    rewrite (file_actions_run ui fname w m Hfs)
      by (apply Hall, list_elem_of_here).
    assert (Hrest : forall f, f ∈ rest -> is_Some (m !! f))
      by (intros f Hf; apply Hall, list_elem_of_further, Hf).
    destruct (decide (clicked_button ui = Some (DeleteFileButton fname)))
      as [Hdel|Hother].
    + rewrite bool_decide_eq_true_2 by done. rewrite Hdel.
      rewrite decide_True by apply list_elem_of_here. reflexivity.
    + rewrite bool_decide_eq_false_2 by done. rewrite IH by done.
      destruct (clicked_button ui) as [[f|f|f|f|f]|]; try reflexivity.
      destruct (decide (f ∈ rest)) as [Hin|Hnin].
      * rewrite decide_True by (apply list_elem_of_further, Hin).
        reflexivity.
      * rewrite decide_False; [reflexivity|].
        intros Hin. apply elem_of_cons in Hin as [->|?]; done.
Qed.

(** The files the page lists: those of the folder whose extension is one
    of the allowed ones. *)
Lemma listed_files (m : gmap string file) (f : string) :
  f ∈ List.filter allowed (elements (dom m))
  <-> is_Some (m !! f) /\ allowed f = true.
Proof.
  rewrite list_elem_of_In, filter_In, <- list_elem_of_In.
  by rewrite elem_of_elements, elem_of_dom.
Qed.

Lemma files_tab_unfold (ui : files_widgets) (w : world)
    (m : gmap string file) :
  files_folder w = Some m ->
  files_tab ui w
  = (file_rows ui (List.filter allowed (elements (dom m))) ;;
     match uploaded_file ui with
     | Some (name, content) => write_file name content ;; experimental_rerun
     | None => ret tt
     end) w.
Proof.
  intros Hfs. unfold files_tab, ensure_files_folder.
  unfold bind at 1. unfold modify. rewrite Hfs.
  unfold bind at 1. unfold listdir_files_folder, bind at 1. unfold gets at 1.
  rewrite Hfs. reflexivity.
Qed.

Lemma files_tab_delete_run (ui : files_widgets) (w : world)
    (m : gmap string file) (fname : string) :
  files_folder w = Some m ->
  is_Some (m !! fname) ->
  allowed fname = true ->
  clicked_button ui = Some (DeleteFileButton fname) ->
  files_tab ui w = (Rerun, with_files (delete fname m) w).
Proof.
  intros Hfs Hfile Hext Hdel. rewrite (files_tab_unfold ui w m Hfs).
  unfold bind at 1.
  rewrite (file_rows_run ui _ w m Hfs)
    by (intros f Hf; by apply listed_files in Hf as [? _]).
  rewrite Hdel. rewrite decide_True; [reflexivity|].
  by apply listed_files.
Qed.

(** A click on the delete button of a listed file removes that file and
    nothing else, and the page reruns at once: a file waiting in the
    uploader is not stored in this run. *)
Theorem files_tab_delete (ui : files_widgets) (w : world)
    (m : gmap string file) (fname : string) :
  files_folder w = Some m ->
  is_Some (m !! fname) ->
  allowed fname = true ->
  clicked_button ui = Some (DeleteFileButton fname) ->
  files_tab ui w = (Rerun, with_files (delete fname m) w) /\
  (forall other, other <> fname ->
     delete fname m !! other = m !! other).
Proof.
  intros Hfs Hfile Hext Hdel. split.
  - by apply files_tab_delete_run.
  - intros other Hne. by apply lookup_delete_ne.
Qed.

Lemma files_tab_upload_run (ui : files_widgets) (w : world)
    (m : gmap string file) :
  files_folder w = Some m ->
  (forall f, clicked_button ui = Some (DeleteFileButton f) ->
             ~ (is_Some (m !! f) /\ allowed f = true)) ->
  files_tab ui w
  = match uploaded_file ui with
    | Some (name, content) => (Rerun, with_files (<[name := content]> m) w)
    | None => (Ret tt, w)
    end.
Proof.
  intros Hfs Hdel. rewrite (files_tab_unfold ui w m Hfs).
  unfold bind at 1.
  rewrite (file_rows_run ui _ w m Hfs)
    by (intros f Hf; by apply listed_files in Hf as [? _]).
  assert (Hrows :
    match clicked_button ui with
    | Some (DeleteFileButton f) =>
        if decide (f ∈ List.filter allowed (elements (dom m)))
        then (Rerun, with_files (delete f m) w)
        else (Ret tt, w)
    | _ => (Ret tt, w)
    end = (Ret tt, w)).
  { destruct (clicked_button ui) as [[f|f|f|f|f]|] eqn:Hc; try reflexivity.
    rewrite decide_False; [reflexivity|].
    rewrite listed_files. by apply Hdel. }
  rewrite Hrows.
  destruct (uploaded_file ui) as [[name content]|]; [|reflexivity].
  unfold bind. by rewrite (write_file_run w m name content Hfs).
Qed.

(** What a run can write.  Unless the delete button of a listed file was
    clicked, the only change a run of the page makes is to store the file
    held by the uploader, which it does whatever else was clicked.  In
    particular a click on the save button of the editor stores nothing: the
    text of the editor never reaches a file. *)
Theorem files_tab_writes_only_uploads (ui : files_widgets) (w : world)
    (m : gmap string file) :
  files_folder w = Some m ->
  (forall f, clicked_button ui = Some (DeleteFileButton f) ->
             ~ (is_Some (m !! f) /\ allowed f = true)) ->
  files_tab ui w
  = match uploaded_file ui with
    | Some (name, content) => (Rerun, with_files (<[name := content]> m) w)
    | None => (Ret tt, w)
    end.
Proof. apply files_tab_upload_run. Qed.

(** Deleting a file that the uploader still holds does not last: the run
    of the click removes it, and the rerun that follows, with nothing
    clicked, stores it again. *)
Theorem files_tab_delete_undone (w : world) (m : gmap string file)
    (fname editor : string) (content : file) :
  files_folder w = Some m ->
  is_Some (m !! fname) ->
  allowed fname = true ->
  let click :=
    FilesWidgets (Some (DeleteFileButton fname)) editor (Some (fname, content)) in
  let idle := FilesWidgets None editor (Some (fname, content)) in
  let deleted := files_tab click w in
  let rerun := files_tab idle deleted.2 in
  deleted = (Rerun, with_files (delete fname m) w) /\
  rerun = (Rerun, with_files (<[fname := content]> m) w).
Proof.
  intros Hfs Hfile Hext click idle deleted rerun.
  assert (Hdeleted : deleted = (Rerun, with_files (delete fname m) w))
    by (by apply files_tab_delete_run).
  split; [exact Hdeleted|].
  unfold rerun. rewrite Hdeleted. cbn [snd].
  rewrite (files_tab_upload_run idle (with_files (delete fname m) w)
             (delete fname m)); [|reflexivity|discriminate].
  cbn [idle uploaded_file]. unfold with_files. cbn.
  by rewrite insert_delete_eq.
Qed.

Lemma files_tab_delete_witness :
  files_tab (FilesWidgets (Some (DeleteFileButton "a.txt")) "" None)
    Fixture.files_world
  = (Rerun, with_files (delete "a.txt" Fixture.two_files) Fixture.files_world).
Proof.
  refine (proj1 (files_tab_delete
                   (FilesWidgets (Some (DeleteFileButton "a.txt")) "" None)
                   Fixture.files_world Fixture.two_files "a.txt"
                   eq_refl _ eq_refl eq_refl)).
  by eexists.
Defined.

Lemma files_tab_writes_only_uploads_witness :
  files_tab (FilesWidgets (Some (SaveButton "a.txt")) "new text" None)
    Fixture.files_world
  = (Ret tt, Fixture.files_world).
Proof.
  apply (files_tab_writes_only_uploads
           (FilesWidgets (Some (SaveButton "a.txt")) "new text" None)
           Fixture.files_world Fixture.two_files eq_refl).
  intros f Hf. discriminate Hf.
Defined.

Lemma files_tab_delete_undone_witness :
  files_tab (FilesWidgets None "" (Some ("a.txt", TextFile "A")))
    (files_tab (FilesWidgets (Some (DeleteFileButton "a.txt")) ""
                  (Some ("a.txt", TextFile "A"))) Fixture.files_world).2
  = (Rerun,
     with_files (<[ "a.txt" := TextFile "A" ]> Fixture.two_files)
       Fixture.files_world).
Proof.
  refine (proj2 (files_tab_delete_undone Fixture.files_world
                   Fixture.two_files "a.txt" "" (TextFile "A")
                   eq_refl _ eq_refl)).
  by eexists.
Defined.

End FilesTabFacts.

(** * [contextual_response_test] *)

Module ContextualFacts.
Import PyStr Performance Contextual PerformanceFacts.

Lemma split_lines_length (s : string) :
  length (split_lines s) = S (count_nl s).
Proof.
  induction s as [|c s IH]; [reflexivity|].
  cbn [split_lines count_nl]. destruct (is_nl c).
  - cbn [length]. by rewrite IH.
  - destruct (split_lines s) as [|line rest]; [discriminate IH|].
    cbn [length] in *. lia.
Qed.

Lemma prompt_loop_rows (call : string -> list Z -> string * list Z * pyval * pyval)
    (prompt_list : list string) (context : list Z) :
  exists rows,
    prompt_loop call prompt_list context = Ok rows /\
    map (fun row => row.1.1) rows = prompt_list.
Proof.
  revert context. induction prompt_list as [|prompt rest IH]; intros context.
  - by exists [].
  - cbn [prompt_loop].
    destruct (call prompt context) as [[[answer context'] ec] ed].
    rewrite tokens_per_second_total.
    destruct (IH context') as (rows & -> & Hrows).
    eexists. split; [reflexivity|]. cbn. by rewrite Hrows.
Qed.

(** The test sends one prompt for every line of the text area, the empty
    ones included, and never raises on the rates: there are as many rows
    as line feeds in the text plus one, so an empty text area still sends
    one empty prompt and a final line feed sends one more. *)
Theorem contextual_test_rows
    (call : string -> list Z -> string * list Z * pyval * pyval)
    (prompts : string) :
  exists rows,
    contextual_response_test call prompts = Ok rows /\
    map (fun row => row.1.1) rows
    = map (strip isspace) (split_lines prompts) /\
    length rows = S (count_nl prompts).
Proof.
  unfold contextual_response_test.
  destruct (prompt_loop_rows call
              (map (strip isspace) (split_lines prompts)) [])
    as (rows & Hrun & Hrows).
  exists rows. split; [exact Hrun|]. split; [exact Hrows|].
  rewrite <- (length_map (fun row => row.1.1)), Hrows, length_map.
  apply split_lines_length.
Qed.

Example split_lines_blank :
  split_lines ("a" +:+ Text.nl +:+ Text.nl +:+ "b" +:+ Text.nl)
  = ["a"; ""; "b"; ""].
Proof. reflexivity. Qed.

End ContextualFacts.
